(** * Tufin/conntrack, package [ovs]: session layer of the Open vSwitch
      datapath client

    A shallow embedding of [dpif.go] (family resolution, session
    construction, header codec, reply validation) and of [ovs.go]
    (datapath resolution, flow following), with the properties of the
    design document stated and settled on it.

    Conventions of the embedding.
    - A Go result list [(T, error)] is a tuple whose last component is an
      [option error]; [None] is Go's [nil].  Pointers that may be [nil] are
      [option]s.
    - Fixed-width integers are [Z] with the wrap-around written out.
    - Everything outside the two source files (the netlink transport, the
      datapath library, the system calls) is a collaborator.  Collaborators
      that only exchange values with the code are fields of the class
      [Transport]: arbitrary transformers of an abstract outside state [K].
    - The code runs in the monad [M]: it threads the outside state, the
      process-wide [sync.Once], and a ghost trace that records every call
      made to a collaborator, in order.  A Go panic ends the run. *)

From Stdlib Require Import ZArith String List Lia Ascii.
From stdpp Require Import base option list gmap strings.
From coqutil Require Import Word.LittleEndianList.

Local Open Scope Z_scope.

(** ** Errors *)

(** The dynamic types of the [error] values that the two files create,
    compare or receive. *)
Inductive error : Type :=
| NetlinkError (errno : Z)              (* type NetlinkError syscall.Errno *)
| Errno (errno : Z)                     (* a bare syscall.Errno *)
| familyUnavailableError (family : string)
| errorString (msg : string)            (* errors.New, fmt.Errorf *)
| NumError (num : string) (out_of_range : bool). (* strconv.NumError *)

#[global] Instance error_eq_dec : EqDecision error.
Proof. solve_decision. Defined.

(** ** The parts of Go's library that the code calls *)

Module Go.

Definition wrap_uint32 (z : Z) : Z := z mod 2 ^ 32.
Definition wrap_int32 (z : Z) : Z := (z + 2 ^ 31) mod 2 ^ 32 - 2 ^ 31.

Definition maxUint32 : Z := 2 ^ 32 - 1.

(** [syscall] constants (linux). *)
Definition ENOENT : Z := 2.
Definition NETLINK_NETFILTER : Z := 12.
Definition NETLINK_GENERIC : Z := 16.
Definition NETLINK_ADD_MEMBERSHIP : Z := 1.
Definition NLMSG_ALIGNTO : Z := 4.

Definition digit (c : ascii) : option Z :=
  let n := Z.of_N (N_of_ascii c) in
  if (48 <=? n) && (n <=? 57) then Some (n - 48) else None.

(** The digit loop of [strconv.ParseUint] for base 10 and bit size 32,
    on the rest [s] of the input [s0]: a byte that is no decimal digit
    is a syntax error, a value above [maxUint32] a range error, each
    reported at the byte where it shows. *)
Fixpoint parseUint_loop (s0 : string) (n : Z) (s : string) : Z * option error :=
  match s with
  | EmptyString => (n, None)
  | String c s' =>
      match digit c with
      | None => (0, Some (NumError s0 false))
      | Some d =>
          if 2 ^ 64 / 10 + 1 <=? n then (maxUint32, Some (NumError s0 true))
          else
            let n1 := n * 10 + d in
            if (2 ^ 64 <=? n1) || (maxUint32 <? n1)
            then (maxUint32, Some (NumError s0 true))
            else parseUint_loop s0 n1 s'
      end
  end.

(** [strconv.ParseUint(s, 10, 32)]. *)
Definition ParseUint_10_32 (s : string) : Z * option error :=
  match s with
  | EmptyString => (0, Some (NumError s false))
  | _ => parseUint_loop s 0 s
  end.

(** The double quote, for [fmt.Sprintf] formats that contain one. *)
Definition dquote : string := String (ascii_of_nat 34) EmptyString.

End Go.

(** ** Data model (dpif.go) *)

Definition DATAPATH : Z := 0.
Definition VPORT : Z := 1.
Definition FLOW : Z := 2.
Definition PACKET : Z := 3.
Definition FAMILY_COUNT : Z := 4.

Definition familyNames : list string :=
  [ "ovs_datapath"; "ovs_vport"; "ovs_flow"; "ovs_packet" ]%string.

(** [GenlFamily]: the numeric id and the multicast groups by name.  A nil
    Go map reads like the empty map. *)
Record GenlFamily : Type := mkGenlFamily {
  id : Z;
  mcGroups : gmap string Z
}.

(** [GenlFamily{}]. *)
Definition GenlFamily_zero : GenlFamily := mkGenlFamily 0 ∅.

(** [NetlinkSocket], by the two fields the code reads. *)
Record NetlinkSocket : Type := mkNetlinkSocket {
  fd : Z;
  sockType : Z
}.

#[global] Instance GenlFamily_eq_dec : EqDecision GenlFamily.
Proof. solve_decision. Defined.

#[global] Instance NetlinkSocket_eq_dec : EqDecision NetlinkSocket.
Proof. solve_decision. Defined.

(** [Dpif].  [families] is the array [[FAMILY_COUNT]GenlFamily]: a list
    read and written by index. *)
Record Dpif : Type := mkDpif {
  sock : NetlinkSocket;
  families : list GenlFamily
}.

(** [dpif.Families()]. *)
Definition Families (dpif : Dpif) : list GenlFamily := families dpif.

(** [IsKernelLacksODPError]: the type assertion
    [err.(familyUnavailableError)]. *)
Definition IsKernelLacksODPError (err : error) : bool :=
  match err with
  | familyUnavailableError _ => true
  | _ => false
  end.

(** [familyUnavailableError.Error()]. *)
Definition familyUnavailableError_Error (family : string) : string :=
  ("Generic netlink family '" ++ family ++
   "' unavailable; the Open vSwitch kernel module is probably not loaded, try 'modprobe openvswitch'")%string.

(** ** Declarations of the package that the two files use *)

(** Constants and types declared in other files of the package, taken as
    parameters. *)
Class Decls : Type := {
  SOL_NETLINK : Z;
  OVS_DP_CMD_NEW : Z;
  OVS_VPORT_CMD_NEW : Z;
  OVS_FLOW_CMD_NEW : Z;
  (** whether [DatapathID] is a signed 32-bit type (or an unsigned one) *)
  DatapathID_signed : bool;
  (** the byte order of the host, which a header overlaid on a buffer has *)
  hostBigEndian : bool
}.

(** The conversion [DatapathID(x)] of an integer. *)
Definition DatapathID `{Decls} (z : Z) : Z :=
  if DatapathID_signed then Go.wrap_int32 z else Go.wrap_uint32 z.

(** The values a [DatapathID] can hold. *)
Definition DatapathID_range `{Decls} (z : Z) : Prop :=
  if DatapathID_signed then - 2 ^ 31 <= z < 2 ^ 31 else 0 <= z < 2 ^ 32.

(** ** Collaborators *)

(** The datapath found by numeric id: the two fields [lookupDatapath]
    reads. *)
Record DatapathInfo (DatapathHandle : Type) : Type := mkDatapathInfo {
  Handle : DatapathHandle;
  Name : string
}.
Arguments mkDatapathInfo {DatapathHandle} _ _.
Arguments Handle {DatapathHandle} _.
Arguments Name {DatapathHandle} _.

(** What the two source files call and do not define.  [K] is the state of
    the world outside them.  A [stop] function obtained from [FollowFlows]
    is a Go closure [func()]: it may change the outside state or panic
    ([None]). *)
Class Transport (K : Type) : Type := {
  DatapathHandle : Type;
  FlowChan : Type;                       (* <-chan *OvsFlowInfo *)
  (** [OpenNetlinkSocket] hands out a socket or an error, never both nil *)
  OpenNetlinkSocket : Z → K → (NetlinkSocket + error) * K;
  NetlinkSocket_Close : NetlinkSocket → K → option error * K;
  LookupGenlFamily : NetlinkSocket → string → K → (GenlFamily * option error) * K;
  SetsockoptInt : Z → Z → Z → Z → K → option error * K;
  syscall_Socket : K → (Z * option error) * K;   (* AF_INET, SOCK_DGRAM, 0 *)
  syscall_Close : Z → K → K;
  syscall_ioctl_SIOCGIFINDEX : Z → string → K → K;
  LookupDatapath : Dpif → string → K → (DatapathHandle * option error) * K;
  LookupDatapathByID : Dpif → Z → K → (DatapathInfo DatapathHandle * option error) * K;
  IsNoSuchDatapathError : error → bool;
  FollowFlows : DatapathHandle → K →
                (option FlowChan * option (K → option K) * option error) * K
}.

(** ** Ghost trace *)

(** One entry per call to a collaborator, with what it answered. *)
Inductive event : Type :=
| EvOpenNetlinkSocket (netlinkType : Z) (r : NetlinkSocket + error)
| EvSockClose (s : NetlinkSocket) (err : option error)
| EvLookupGenlFamily (s : NetlinkSocket) (name : string) (family : GenlFamily) (err : option error)
| EvOnceDo (ran : bool)
| EvSysSocket (fd : Z) (err : option error)
| EvSysIoctl (fd : Z) (ifname : string)
| EvSysClose (fd : Z)
| EvSetsockoptInt (fd level opt value : Z) (err : option error)
| EvLookupDatapath (name : string) (err : option error)
| EvLookupDatapathByID (ifindex : Z) (err : option error)
| EvFollowFlows (err : option error)
| EvFlowStop.

#[global] Instance event_eq_dec : EqDecision event.
Proof. solve_decision. Defined.

(** ** The monad of the code *)

Record World (K : Type) : Type := mkWorld {
  kern : K;
  (** [var triedLoadOpenvswitchModule sync.Once]: has [Do] run already? *)
  triedLoadOpenvswitchModule : bool;
  trace : list event
}.
Arguments mkWorld {K} _ _ _.
Arguments kern {K} _.
Arguments triedLoadOpenvswitchModule {K} _.
Arguments trace {K} _.

Inductive outcome (K A : Type) : Type :=
| Done (a : A) (w : World K)
| Panic (w : World K).
Arguments Done {K A} _ _.
Arguments Panic {K A} _.

Definition M (K A : Type) : Type := World K → outcome K A.

#[global] Instance M_ret {K} : MRet (M K) := λ A a w, Done a w.
#[global] Instance M_bind {K} : MBind (M K) := λ A B f m w,
  match m w with
  | Done a w' => f a w'
  | Panic w' => Panic w'
  end.

Definition panic {K A} : M K A := λ w, Panic w.

(** Dereference of a pointer: a nil one panics. *)
Definition deref {K A} (p : option A) : M K A :=
  match p with
  | Some a => mret a
  | None => panic
  end.

(** Indexing of an array: out of range panics. *)
Definition index {K A} (l : list A) (i : Z) : M K A :=
  if decide (0 <= i) then deref (l !! Z.to_nat i) else panic.

(** A call to a collaborator [f], recorded as [ev] of its answer. *)
Definition call {K A} (f : K → A * K) (ev : A → event) : M K A := λ w,
  let '(a, k') := f (kern w) in
  Done a (mkWorld k' (triedLoadOpenvswitchModule w) (trace w ++ [ev a])).

(** A call to a collaborator that returns nothing. *)
Definition call_ {K} (f : K → K) (ev : event) : M K unit :=
  call (λ k, (tt, f k)) (λ _, ev).

(** [triedLoadOpenvswitchModule.Do(f)]. *)
Definition Once_Do {K} (f : M K unit) : M K unit := λ w,
  if triedLoadOpenvswitchModule w
  then Done tt (mkWorld (kern w) true (trace w ++ [EvOnceDo false]))
  else
    match f (mkWorld (kern w) false (trace w ++ [EvOnceDo true])) with
    | Done _ w' => Done tt (mkWorld (kern w') true (trace w'))
    | Panic w' => Panic w'
    end.

Section Session.
Context `{D : Decls} {K : Type} `{T : Transport K}.

(** *** dpif.go *)

Definition loadOpenvswitchModule : M K unit :=
  '(s, err) ← call syscall_Socket (λ r, EvSysSocket r.1 r.2);
  match err with
  | Some _ => mret tt
  | None =>
      call_ (syscall_ioctl_SIOCGIFINDEX s "openvswitch") (EvSysIoctl s "openvswitch");;
      (* defer syscall.Close(s) *)
      call_ (syscall_Close s) (EvSysClose s)
  end.

Definition lookupFamily (sock : NetlinkSocket) (name : string)
  : M K (GenlFamily * option error) :=
  '(family, err) ← call (LookupGenlFamily sock name)
                        (λ r, EvLookupGenlFamily sock name r.1 r.2);
  match err with
  | None => mret (family, None)
  | Some e =>
      if decide (e = NetlinkError Go.ENOENT) then
        Once_Do loadOpenvswitchModule;;
        (* The module might be loaded now, so try again *)
        '(family, err) ← call (LookupGenlFamily sock name)
                              (λ r, EvLookupGenlFamily sock name r.1 r.2);
        match err with
        | None => mret (family, None)
        | Some e' =>
            if decide (e' = NetlinkError Go.ENOENT)
            then mret (GenlFamily_zero, Some (familyUnavailableError name))
            else mret (GenlFamily_zero, Some e')
        end
      else mret (GenlFamily_zero, Some e)
  end.

(** [dpif.Close()]. *)
Definition Dpif_Close (dpif : Dpif) : M K (option error) :=
  call (NetlinkSocket_Close (sock dpif)) (EvSockClose (sock dpif)).

(** The loop of [newDpifType], over [i = 0 .. FAMILY_COUNT - 1].  The
    assignment [dpif.families[i], err = lookupFamily(..)] stores the
    family before [err] is looked at. *)
Fixpoint newDpifType_loop (idx : list Z) (dpif : Dpif)
  : M K (option Dpif * option error) :=
  match idx with
  | [] => mret (Some dpif, None)
  | i :: idx' =>
      name ← index familyNames i;
      '(family, err) ← lookupFamily (sock dpif) name;
      _ ← index (families dpif) i;
      let dpif := mkDpif (sock dpif) (<[Z.to_nat i := family]> (families dpif)) in
      match err with
      | Some e => Dpif_Close dpif;; mret (None, Some e)
      | None => newDpifType_loop idx' dpif
      end
  end.

Definition newDpifType (netlinkType : Z) : M K (option Dpif * option error) :=
  r ← call (OpenNetlinkSocket netlinkType) (EvOpenNetlinkSocket netlinkType);
  match r with
  | inr e => mret (None, Some e)
  | inl sock =>
      let dpif := mkDpif sock (replicate (Z.to_nat FAMILY_COUNT) GenlFamily_zero) in
      newDpifType_loop (seqZ 0 FAMILY_COUNT) dpif
  end.

Definition NewDpif : M K (option Dpif * option error) :=
  newDpifType Go.NETLINK_NETFILTER.

Definition getMCGroup (dpif : Dpif) (family : Z) (name : string)
  : M K (Z * option error) :=
  fam ← index (families dpif) family;
  match mcGroups fam !! name with
  | None =>
      fname ← index familyNames family;
      mret (0, Some (errorString
              ("No genl MC group " ++ name ++ " in family " ++ fname)%string))
  | Some mcGroup => mret (mcGroup, None)
  end.

Definition NewDpifOvs (follow : bool) : M K (option Dpif * option error) :=
  '(dpif, err) ← newDpifType Go.NETLINK_GENERIC;
  match err with
  | Some e => mret (None, Some e)
  | None =>
      d ← deref dpif;
      '(group, err) ← getMCGroup d FLOW "ovs_flow";
      match err with
      | Some e => Dpif_Close d;; mret (None, Some e)
      | None =>
          if follow then
            err ← call (SetsockoptInt (fd (sock d)) SOL_NETLINK
                                      Go.NETLINK_ADD_MEMBERSHIP group)
                       (EvSetsockoptInt (fd (sock d)) SOL_NETLINK
                                        Go.NETLINK_ADD_MEMBERSHIP group);
            match err with
            | Some e => Dpif_Close d;; mret (None, Some e)
            | None => mret (Some d, None)
            end
          else mret (Some d, None)
      end
  end.

(** Open a Dpif with a new socket, but reusing the family info *)
Definition Reopen (dpif : Dpif) : M K (option Dpif * option error) :=
  r ← call (OpenNetlinkSocket (sockType (sock dpif)))
           (EvOpenNetlinkSocket (sockType (sock dpif)));
  match r with
  | inr e => mret (None, Some e)
  | inl sock => mret (Some (mkDpif sock (families dpif)), None)
  end.

(** [cancelableDpif.Cancel()]. *)
Definition Cancel (dpif : Dpif) : M K (option error) := Dpif_Close dpif.

(** *** ovs.go *)

Definition cannotFind (name : string) : error :=
  errorString ("Cannot find datapath " ++ Go.dquote ++ name ++ Go.dquote)%string.

Definition lookupDatapath (dpif : Dpif) (name : string)
  : M K (option DatapathHandle * string * option error) :=
  '(dph, err) ← call (LookupDatapath dpif name) (λ r, EvLookupDatapath name r.2);
  match err with
  | None => mret (Some dph, name, None)
  | Some e =>
      if negb (IsNoSuchDatapathError e) then mret (None, EmptyString, Some e)
      else
        (* If the name is a number, try to use it as an id *)
        let '(ifindex, err) := Go.ParseUint_10_32 name in
        match err with
        | None =>
            '(dp, err) ← call (LookupDatapathByID dpif (DatapathID ifindex))
                              (λ r, EvLookupDatapathByID (DatapathID ifindex) r.2);
            match err with
            | None => mret (Some (Handle dp), Name dp, None)
            | Some e' =>
                if negb (IsNoSuchDatapathError e')
                then mret (None, EmptyString, Some e')
                else mret (None, EmptyString, Some (cannotFind name))
            end
        | Some _ => mret (None, EmptyString, Some (cannotFind name))
        end
  end.

(** A run of a function value obtained from [FollowFlows]: it may change
    the outside state or panic. *)
Definition run_stop (f : K → option K) : M K unit := λ w,
  let w1 := mkWorld (kern w) (triedLoadOpenvswitchModule w)
                    (trace w ++ [EvFlowStop]) in
  match f (kern w) with
  | Some k' => Done tt (mkWorld k' (triedLoadOpenvswitchModule w) (trace w1))
  | None => Panic w1
  end.

(** The call [stop()]: calling a nil function panics. *)
Definition call_stop (stop : option (K → option K)) : M K unit :=
  f ← deref stop; run_stop f.

(** The function literal [func() { stop(); dpif.Close() }]. *)
Definition stop_func (stop : option (K → option K)) (dpif : Dpif) : M K unit :=
  call_stop stop;; Dpif_Close dpif;; mret tt.

Definition FollowOvsFlows
  : M K (option FlowChan * option (M K unit) * option error) :=
  '(dpif, err) ← NewDpifOvs true;
  match err with
  | Some e => mret (None, None, Some e)
  | None =>
      d ← deref dpif;
      '(dp, _, err) ← lookupDatapath d "ovs-system";
      match err with
      | Some e => mret (None, None, Some e)
      | None =>
          h ← deref dp;
          '(res, stop, err) ← call (FollowFlows h) (λ r, EvFollowFlows r.2);
          mret (res, Some (stop_func stop d), err)
      end
  end.

End Session.

(** ** Message buffers and the header codec (dpif.go) *)

Abbreviation byte := Init.Byte.byte.

Record NlMsgBuilder : Type := mkNlMsgBuilder { buf : list byte }.

Record NlMsgParser : Type := mkNlMsgParser {
  data : list byte;
  pos : Z
}.

(** A header overlaid on a buffer ([ovsHeaderAt], [genlMsghdrAt]): the
    buffer and the offset the pointer points at. *)
Record view : Type := mkView {
  mem : list byte;
  off : Z
}.

(** [OvsHeader] has the single field [DpIfIndex int32]; [GenlMsghdr] and
    [NlMsghdr] are the headers of generic netlink and of netlink. *)
Definition SizeofOvsHeader : Z := 4.
Definition SizeofGenlMsghdr : Z := 4.
Definition SizeofNlMsghdr : Z := 16.

Record OvsHeader : Type := mkOvsHeader { DpIfIndex : Z }.

(** The bytes [mem[off .. off+n)]. *)
Definition bytes_at (m : list byte) (o : Z) (n : nat) : list byte :=
  take n (drop (Z.to_nat o) m).

(** Overwrite [mem[off ..)] with [bs]. *)
Definition bytes_put (m : list byte) (o : Z) (bs : list byte) : list byte :=
  take (Z.to_nat o) m ++ bs ++ drop (Z.to_nat o + length bs) m.

Section Codec.
Context `{D : Decls}.

(** An [n]-byte integer field in host byte order. *)
Definition encode_int (n : nat) (z : Z) : list byte :=
  if hostBigEndian then rev (le_split n z) else le_split n z.

Definition decode_uint (bs : list byte) : Z :=
  le_combine (if hostBigEndian then rev bs else bs).

(** Modelled from the spec: the alignment of the message buffer
    primitives, missing from the sources: the next offset at or after
    [n] that is a multiple of [a]. *)
Definition align (n a : Z) : Z := (n + a - 1) / a * a.

(** Modelled from the spec: [NlMsgBuilder.AlignGrow], missing from the
    sources: "grow to next aligned offset and reserve N bytes"; the
    answer is the aligned offset, the new bytes are zero. *)
Definition AlignGrow (a size : Z) (b : NlMsgBuilder) : Z * NlMsgBuilder :=
  let len := Z.of_nat (length (buf b)) in
  let apos := align len a in
  (apos, mkNlMsgBuilder (buf b ++ replicate (Z.to_nat (apos - len + size)) Init.Byte.x00)).

(** Modelled from the spec: [NlMsgParser.AlignAdvance], missing from the
    sources: "advance to next aligned offset and consume N bytes (fails
    if buffer exhausted)"; the answer is the aligned offset. *)
Definition AlignAdvance (a size : Z) (p : NlMsgParser)
  : (Z * option error) * NlMsgParser :=
  let apos := align (pos p) a in
  if decide (apos + size <= Z.of_nat (length (data p)))
  then ((apos, None), mkNlMsgParser (data p) (apos + size))
  else ((0, Some (errorString "netlink message truncated")), p).

(** Modelled from the spec: [ovsHeaderAt], missing from the sources: the
    header overlaid on the buffer at an offset. *)
Definition ovsHeaderAt (m : list byte) (o : Z) : view := mkView m o.

(** The assignment [h.DpIfIndex = v] through such a pointer: the buffer
    afterwards. *)
Definition set_DpIfIndex (h : view) (v : Z) : list byte :=
  bytes_put (mem h) (off h) (encode_int 4 v).

(** The header a pointer points at ([*h]). *)
Definition load_OvsHeader (h : view) : OvsHeader :=
  mkOvsHeader (Go.wrap_int32 (decode_uint (bytes_at (mem h) (off h) 4))).

Definition putOvsHeader (ifindex : Z) (nlmsg : NlMsgBuilder) : NlMsgBuilder :=
  let '(pos, nlmsg) := AlignGrow Go.NLMSG_ALIGNTO SizeofOvsHeader nlmsg in
  let h := ovsHeaderAt (buf nlmsg) pos in
  mkNlMsgBuilder (set_DpIfIndex h (Go.wrap_int32 ifindex)).

Definition takeOvsHeader (nlmsg : NlMsgParser)
  : (option view * option error) * NlMsgParser :=
  let '((pos, err), nlmsg) := AlignAdvance Go.NLMSG_ALIGNTO SizeofOvsHeader nlmsg in
  match err with
  | Some e => ((None, Some e), nlmsg)
  | None => ((Some (ovsHeaderAt (data nlmsg) pos), None), nlmsg)
  end.

Definition datapathID (ovshdr : OvsHeader) : Z := DatapathID (DpIfIndex ovshdr).

(** The fields of the two netlink headers that reply validation reads. *)
Definition NlMsghdr_Type (h : view) : Z :=
  decode_uint (bytes_at (mem h) (off h + 4) 2).
Definition GenlMsghdr_Cmd (h : view) : Z :=
  decode_uint (bytes_at (mem h) (off h) 1).

(** Modelled from the spec: [NlMsgParser.ExpectNlMsghdr], missing from
    the sources: it takes the netlink header and "checks the message's
    transport-level header addresses the resolved family id". *)
Definition ExpectNlMsghdr (typ : Z) (nlmsg : NlMsgParser)
  : (option view * option error) * NlMsgParser :=
  let '((pos, err), nlmsg) := AlignAdvance Go.NLMSG_ALIGNTO SizeofNlMsghdr nlmsg in
  match err with
  | Some e => ((None, Some e), nlmsg)
  | None =>
      let h := mkView (data nlmsg) pos in
      if decide (NlMsghdr_Type h = typ) then ((Some h, None), nlmsg)
      else ((None, Some (errorString "netlink response has wrong type")), nlmsg)
  end.

(** Modelled from the spec: [NlMsgParser.CheckGenlMsghdr], missing from
    the sources: it takes the generic netlink header and accepts the
    reply when its command is [cmd], or is [altCmd] where an alternative
    is given; a negative [altCmd] gives none. *)
Definition CheckGenlMsghdr (cmd altCmd : Z) (nlmsg : NlMsgParser)
  : (option view * option error) * NlMsgParser :=
  let '((pos, err), nlmsg) := AlignAdvance Go.NLMSG_ALIGNTO SizeofGenlMsghdr nlmsg in
  match err with
  | Some e => ((None, Some e), nlmsg)
  | None =>
      let h := mkView (data nlmsg) pos in
      if decide (GenlMsghdr_Cmd h = cmd) then ((Some h, None), nlmsg)
      else if decide (0 <= altCmd ∧ GenlMsghdr_Cmd h = altCmd)
           then ((Some h, None), nlmsg)
           else ((None, Some (errorString "generic netlink response has wrong cmd")), nlmsg)
  end.

(** [dpif.checkNlMsgHeaders(msg, family, cmd)]; [None] is the panic of
    an index out of the range of [dpif.families]. *)
Definition checkNlMsgHeaders (dpif : Dpif) (msg : NlMsgParser) (family cmd : Z)
  : option ((option view * option view * option error) * NlMsgParser) :=
  if decide (0 <= family) then
    fam ← families dpif !! Z.to_nat family;
    let '((_, err), msg) := ExpectNlMsghdr (id fam) msg in
    match err with
    | Some e => Some ((None, None, Some e), msg)
    | None =>
        (* Until Linux Kernel v4.19, generic netlink command in reply
           message for some of ovs requests had incorrectly been set to
           OVS_*_CMD_NEW. *)
        let '((genlhdr, err), msg) :=
          if decide (family = DATAPATH) then CheckGenlMsghdr cmd OVS_DP_CMD_NEW msg
          else if decide (family = VPORT) then CheckGenlMsghdr cmd OVS_VPORT_CMD_NEW msg
          else if decide (family = FLOW) then CheckGenlMsghdr cmd OVS_FLOW_CMD_NEW msg
          else CheckGenlMsghdr cmd (-1) msg in
        match err with
        | Some e => Some ((None, None, Some e), msg)
        | None =>
            let '((ovshdr, err), msg) := takeOvsHeader msg in
            match err with
            | Some e => Some ((None, None, Some e), msg)
            | None => Some ((genlhdr, ovshdr, None), msg)
            end
        end
    end
  else None.

End Codec.

(** ** A simulated host

    A small executable outside world, on which the code is run: a kernel
    with or without the openvswitch module, a table of datapaths, a table
    of open descriptors, and one flow follower. *)

Module Sim.

Definition ENODEV : Z := 19.
Definition EBADF : Z := 9.

Record state : Type := mkState {
  module_loaded : bool;          (* the families are registered *)
  autoload : bool;               (* the netdev ioctl loads the module *)
  datapaths : list (string * Z); (* name and ifindex *)
  next_fd : Z;
  open_fds : list Z;
  follow_fails : bool;           (* FollowFlows answers an error *)
  stop_panics_when_repeated : bool; (* stop closes a channel *)
  stopped : bool
}.

Definition decls : Decls := {|
  SOL_NETLINK := 270;
  OVS_DP_CMD_NEW := 1;
  OVS_VPORT_CMD_NEW := 1;
  OVS_FLOW_CMD_NEW := 1;
  DatapathID_signed := true;
  hostBigEndian := false
|}.

(** A host whose [DatapathID] is unsigned and whose byte order is big. *)
Definition decls_unsigned_be : Decls := {|
  SOL_NETLINK := 270;
  OVS_DP_CMD_NEW := 1;
  OVS_VPORT_CMD_NEW := 1;
  OVS_FLOW_CMD_NEW := 1;
  DatapathID_signed := false;
  hostBigEndian := true
|}.

Definition OVS_DP_CMD_GET : Z := 3.

Definition set_fds (k : state) (n : Z) (fds : list Z) : state :=
  mkState (module_loaded k) (autoload k) (datapaths k) n fds
          (follow_fails k) (stop_panics_when_repeated k) (stopped k).

Definition open_fd (k : state) : Z * state :=
  (next_fd k, set_fds k (next_fd k + 1) (next_fd k :: open_fds k)).

Definition close_fd (d : Z) (k : state) : option error * state :=
  if decide (d ∈ open_fds k)
  then (None, set_fds k (next_fd k) (filter (λ x, x ≠ d) (open_fds k)))
  else (Some (Errno EBADF), k).

Definition family_index (name : string) : option nat :=
  fst <$> list_find (λ n, n = name) familyNames.

Definition lookup_family (name : string) (k : state) : GenlFamily * option error :=
  match family_index name with
  | Some i =>
      if module_loaded k
      then (mkGenlFamily (24 + Z.of_nat i) {[ name := 5 + Z.of_nat i ]}, None)
      else (GenlFamily_zero, Some (NetlinkError Go.ENOENT))
  | None => (GenlFamily_zero, Some (NetlinkError Go.ENOENT))
  end.

Definition by_name (name : string) (k : state) : option (string * Z) :=
  snd <$> list_find (λ d, d.1 = name) (datapaths k).

Definition by_id (ifindex : Z) (k : state) : option (string * Z) :=
  snd <$> list_find (λ d, d.2 = ifindex) (datapaths k).

(** The stop function of the follower: the first call stops it; a
    repeated call panics on a host where stopping closes a channel. *)
Definition stop : state → option state := λ k,
  if stopped k && stop_panics_when_repeated k then None
  else Some (mkState (module_loaded k) (autoload k) (datapaths k) (next_fd k)
                     (open_fds k) (follow_fails k)
                     (stop_panics_when_repeated k) true).

Definition transport : Transport state := {|
  DatapathHandle := Z;
  FlowChan := unit;
  OpenNetlinkSocket := λ t k,
    let '(d, k') := open_fd k in (inl (mkNetlinkSocket d t), k');
  NetlinkSocket_Close := λ s k, close_fd (fd s) k;
  LookupGenlFamily := λ _ name k, (lookup_family name k, k);
  SetsockoptInt := λ _ _ _ _ k, (None, k);
  syscall_Socket := λ k, let '(d, k') := open_fd k in ((d, None), k');
  syscall_Close := λ d k, (close_fd d k).2;
  syscall_ioctl_SIOCGIFINDEX := λ _ _ k,
    mkState (module_loaded k || autoload k) (autoload k) (datapaths k)
            (next_fd k) (open_fds k) (follow_fails k)
            (stop_panics_when_repeated k) (stopped k);
  LookupDatapath := λ _ name k,
    match by_name name k with
    | Some d => ((d.2, None), k)
    | None => ((0, Some (NetlinkError ENODEV)), k)
    end;
  LookupDatapathByID := λ _ ifindex k,
    match by_id ifindex k with
    | Some d => ((mkDatapathInfo d.2 d.1, None), k)
    | None => ((mkDatapathInfo 0 EmptyString, Some (NetlinkError ENODEV)), k)
    end;
  IsNoSuchDatapathError := λ e, bool_decide (e = NetlinkError ENODEV);
  FollowFlows := λ _ k,
    if follow_fails k then ((None, None, Some (NetlinkError ENODEV)), k)
    else ((Some tt, Some stop, None), k)
|}.

(** The transport of a kernel that has no Open vSwitch support at all:
    every family is unknown, whatever is loaded. *)
Definition transport_without_ovs : Transport state := {|
  DatapathHandle := Z;
  FlowChan := unit;
  OpenNetlinkSocket := @OpenNetlinkSocket _ transport;
  NetlinkSocket_Close := @NetlinkSocket_Close _ transport;
  LookupGenlFamily := λ _ _ k, ((GenlFamily_zero, Some (NetlinkError Go.ENOENT)), k);
  SetsockoptInt := @SetsockoptInt _ transport;
  syscall_Socket := @syscall_Socket _ transport;
  syscall_Close := @syscall_Close _ transport;
  syscall_ioctl_SIOCGIFINDEX := @syscall_ioctl_SIOCGIFINDEX _ transport;
  LookupDatapath := @LookupDatapath _ transport;
  LookupDatapathByID := @LookupDatapathByID _ transport;
  IsNoSuchDatapathError := @IsNoSuchDatapathError _ transport;
  FollowFlows := @FollowFlows _ transport
|}.

(** A host with the module loaded and the given datapaths; descriptors
    0, 1 and 2 are taken. *)
Definition host (dps : list (string * Z)) (fails repeat_panics : bool) : state :=
  mkState true false dps 3 [0; 1; 2] fails repeat_panics false.

(** A host whose module is not loaded. *)
Definition bare_host (auto : bool) : state :=
  mkState false auto [] 3 [0; 1; 2] false false false.

Definition boot (k : state) : World state := mkWorld k false [].

Definition with_system : list (string * Z) := [("ovs-system"%string, 7)].

(** The session that [NewDpifOvs] builds on [host]: descriptor 3 and the
    four families. *)
Definition session_socket : NetlinkSocket := mkNetlinkSocket 3 Go.NETLINK_GENERIC.

Definition family (i : nat) (name : string) : GenlFamily :=
  mkGenlFamily (24 + Z.of_nat i) {[ name := 5 + Z.of_nat i ]}.

Definition dpif : Dpif :=
  mkDpif session_socket
    [ family 0 "ovs_datapath"; family 1 "ovs_vport";
      family 2 "ovs_flow"; family 3 "ovs_packet" ].

(** The trace of the opening of that session, with the subscription. *)
Definition session_trace : list event :=
  [ EvOpenNetlinkSocket Go.NETLINK_GENERIC (inl session_socket);
    EvLookupGenlFamily session_socket "ovs_datapath" (family 0 "ovs_datapath") None;
    EvLookupGenlFamily session_socket "ovs_vport" (family 1 "ovs_vport") None;
    EvLookupGenlFamily session_socket "ovs_flow" (family 2 "ovs_flow") None;
    EvLookupGenlFamily session_socket "ovs_packet" (family 3 "ovs_packet") None;
    EvSetsockoptInt 3 270 Go.NETLINK_ADD_MEMBERSHIP 7 None ].

(** [host dps fails repeat_panics] once the session is open. *)
Definition host_in_session (dps : list (string * Z)) (fails repeat_panics : bool)
  : state :=
  mkState true false dps 4 [3; 0; 1; 2] fails repeat_panics false.

(** A reply of the kernel on a little-endian host: the netlink header
    (length, type, flags, sequence number, port id), the generic netlink
    header (command, version, reserved) and the header with the index of
    the datapath. *)
Definition reply (typ cmd ifindex : Z) : list byte :=
  le_split 4 24 ++ le_split 2 typ ++ le_split 2 0 ++ le_split 4 0 ++ le_split 4 0
    ++ le_split 1 cmd ++ le_split 1 1 ++ le_split 2 0
    ++ le_split 4 ifindex.

(** The world after a successful [FollowOvsFlows] on
    [host with_system false repeat_panics]. *)
Definition followed (repeat_panics : bool) : World state :=
  mkWorld (host_in_session with_system false repeat_panics) false
          (session_trace ++ [EvLookupDatapath "ovs-system" None; EvFollowFlows None]).

End Sim.

(** ** The behaviours of the design document, over traces *)

(** What a trigger of the module-autoload guard leaves in the trace: the
    action is skipped, or it runs the probe, which closes the descriptor
    it opened. *)
Inductive guard_run : list event → Prop :=
| guard_skipped :
    guard_run [EvOnceDo false]
| guard_probe_no_socket d e :
    guard_run [EvOnceDo true; EvSysSocket d (Some e)]
| guard_probe d :
    guard_run [EvOnceDo true; EvSysSocket d None;
               EvSysIoctl d "openvswitch"; EvSysClose d].

(** Family resolution as the design document words it (section 4.1): the
    calls made for one resolution of [name] on [sock], and its result. *)
Inductive resolve_run (sock : NetlinkSocket) (name : string)
  : list event → GenlFamily * option error → Prop :=
| resolve_first_ok f :
    resolve_run sock name
      [EvLookupGenlFamily sock name f None] (f, None)
| resolve_first_other f e :
    e ≠ NetlinkError Go.ENOENT →
    resolve_run sock name
      [EvLookupGenlFamily sock name f (Some e)] (GenlFamily_zero, Some e)
| resolve_retry_ok f1 tg f2 :
    guard_run tg →
    resolve_run sock name
      (EvLookupGenlFamily sock name f1 (Some (NetlinkError Go.ENOENT))
         :: tg ++ [EvLookupGenlFamily sock name f2 None])
      (f2, None)
| resolve_retry_unavailable f1 tg f2 :
    guard_run tg →
    resolve_run sock name
      (EvLookupGenlFamily sock name f1 (Some (NetlinkError Go.ENOENT))
         :: tg ++ [EvLookupGenlFamily sock name f2 (Some (NetlinkError Go.ENOENT))])
      (GenlFamily_zero, Some (familyUnavailableError name))
| resolve_retry_other f1 tg f2 e :
    e ≠ NetlinkError Go.ENOENT →
    guard_run tg →
    resolve_run sock name
      (EvLookupGenlFamily sock name f1 (Some (NetlinkError Go.ENOENT))
         :: tg ++ [EvLookupGenlFamily sock name f2 (Some e)])
      (GenlFamily_zero, Some e).

(** The queries for a family in a trace, and the triggers of the guard. *)
Definition family_queries (t : list event) : list (NetlinkSocket * string * option error) :=
  omap (λ e, match e with
             | EvLookupGenlFamily s n _ r => Some (s, n, r)
             | _ => None
             end) t.

Definition guard_triggers (t : list event) : list bool :=
  omap (λ e, match e with EvOnceDo ran => Some ran | _ => None end) t.

(** The families [names] resolved one after the other on [sock], all with
    success. *)
Inductive resolved (sock : NetlinkSocket)
  : list string → list GenlFamily → list event → Prop :=
| resolved_nil : resolved sock [] [] []
| resolved_cons name names f fs t1 t2 :
    resolve_run sock name t1 (f, None) →
    resolved sock names fs t2 →
    resolved sock (name :: names) (f :: fs) (t1 ++ t2).

(** The sockets closed in a trace. *)
Definition closes (t : list event) : list NetlinkSocket :=
  omap (λ e, match e with EvSockClose s _ => Some s | _ => None end) t.

(** The teardown of the design document (section 4.6, step 4) on the
    session socket [s], with the stop function [stop] of the flow
    follower: first the stop function, a nil one or one that panics ending
    the run; then, on the state it left, the close of [s]. *)
Definition stop_then_close `{Transport K} (s : NetlinkSocket)
    (stop : option (K → option K)) (v : World K) : outcome K unit :=
  match stop with
  | None => Panic v
  | Some f =>
      match f (kern v) with
      | None => Panic (mkWorld (kern v) (triedLoadOpenvswitchModule v)
                               (trace v ++ [EvFlowStop]))
      | Some k1 =>
          let c := NetlinkSocket_Close s k1 in
          Done tt (mkWorld c.2 (triedLoadOpenvswitchModule v)
                           (trace v ++ [EvFlowStop; EvSockClose s c.1]))
      end
  end.



(** ** The states the transport leaves *)

Section Transport_states.
Context {K : Type} `{T : Transport K}.

(** The state in which a run of the autoload probe from [w] ends: what
    the system calls answer, one after the other.  The probe asks for a
    datagram socket; given one, it asks for the index of the interface
    "openvswitch" on it and closes it. *)
Definition probe_end (w : World K) : World K :=
  let '((d, err), k1) := syscall_Socket (kern w) in
  match err with
  | Some e =>
      mkWorld k1 (triedLoadOpenvswitchModule w)
              (trace w ++ [EvSysSocket d (Some e)])
  | None =>
      mkWorld (syscall_Close d (syscall_ioctl_SIOCGIFINDEX d "openvswitch" k1))
              (triedLoadOpenvswitchModule w)
              (trace w ++ [EvSysSocket d None; EvSysIoctl d "openvswitch";
                           EvSysClose d])
  end.

(** The state in which a trigger of the one-shot guard from [w] ends:
    the probe runs only from the state "not yet attempted", and the
    guard is "attempted" afterwards. *)
Definition guard_end (w : World K) : World K :=
  if triedLoadOpenvswitchModule w
  then mkWorld (kern w) true (trace w ++ [EvOnceDo false])
  else
    let w1 := probe_end (mkWorld (kern w) false (trace w ++ [EvOnceDo true])) in
    mkWorld (kern w1) true (trace w1).

(** The state the transport leaves when the socket [s] is closed in [w]. *)
Definition close_end (s : NetlinkSocket) (w : World K) : World K :=
  let c := NetlinkSocket_Close s (kern w) in
  mkWorld c.2 (triedLoadOpenvswitchModule w) (trace w ++ [EvSockClose s c.1]).

(** The families [names] resolved one after the other on [sock], all
    with success, by runs of [lookupFamily] that lead from the state [w]
    to the state [w'], each run starting in the state the run before it
    left. *)
Inductive resolves (sock : NetlinkSocket)
  : list string → list GenlFamily → World K → World K → Prop :=
| resolves_nil w : resolves sock [] [] w w
| resolves_cons name names f fs w w1 w' :
    lookupFamily sock name w = Done (f, None) w1 →
    resolves sock names fs w1 w' →
    resolves sock (name :: names) (f :: fs) w w'.

End Transport_states.

Section Session_states.
Context `{D : Decls} {K : Type} `{T : Transport K}.

(** The construction of a session on a socket of the kind [netlinkType],
    entered in the state [w]: what it returns and the state [w'] it
    leaves, from the answer of the transport to the open, the runs of
    [lookupFamily] that follow it, and the close after a failure. *)
Definition construction_end (netlinkType : Z) (w : World K)
    (r : option Dpif * option error) (w' : World K) : Prop :=
  match OpenNetlinkSocket netlinkType (kern w) with
  | (inr e, k1) =>
      r = (None, Some e) ∧
      w' = mkWorld k1 (triedLoadOpenvswitchModule w)
                   (trace w ++ [EvOpenNetlinkSocket netlinkType (inr e)])
  | (inl s, k1) =>
      let w1 := mkWorld k1 (triedLoadOpenvswitchModule w)
                        (trace w ++ [EvOpenNetlinkSocket netlinkType (inl s)]) in
      (∃ fs, resolves s familyNames fs w1 w' ∧ r = (Some (mkDpif s fs), None)) ∨
      (∃ ok name rest fs w2 w3 f e,
         familyNames = ok ++ name :: rest ∧
         resolves s ok fs w1 w2 ∧
         lookupFamily s name w2 = Done (f, Some e) w3 ∧
         r = (None, Some e) ∧
         w' = close_end s w3)
  end.

(** The opening of a session for Open vSwitch, entered in the state [w]:
    what it returns and the state [w'] it leaves, from the construction
    of the session, the group "ovs_flow" that the family FLOW of the
    session records, the answer of the transport to the request for
    membership, made only with [follow], and the close after a
    failure. *)
Definition subscription_end (follow : bool) (w : World K)
    (r : option Dpif * option error) (w' : World K) : Prop :=
  ∃ r0 w1,
    newDpifType Go.NETLINK_GENERIC w = Done r0 w1 ∧
    construction_end Go.NETLINK_GENERIC w r0 w1 ∧
    match r0 with
    | (_, Some e) => r = (None, Some e) ∧ w' = w1
    | (None, None) => False
    | (Some d, None) =>
        ∃ fam,
          families d !! Z.to_nat FLOW = Some fam ∧
          match mcGroups fam !! "ovs_flow"%string with
          | None =>
              r = (None, Some (errorString
                                 "No genl MC group ovs_flow in family ovs_flow")) ∧
              w' = close_end (sock d) w1
          | Some g =>
              if follow then
                let a := SetsockoptInt (fd (sock d)) SOL_NETLINK
                           Go.NETLINK_ADD_MEMBERSHIP g (kern w1) in
                let w2 := mkWorld a.2 (triedLoadOpenvswitchModule w1)
                            (trace w1 ++ [EvSetsockoptInt (fd (sock d)) SOL_NETLINK
                                            Go.NETLINK_ADD_MEMBERSHIP g a.1]) in
                match a.1 with
                | Some e => r = (None, Some e) ∧ w' = close_end (sock d) w2
                | None => r = (Some d, None) ∧ w' = w2
                end
              else r = (Some d, None) ∧ w' = w1
          end
    end.

End Session_states.

(** ** Further readings of a trace *)

(** The world in which a run ends, with or without a panic. *)
Definition final {K A} (o : outcome K A) : World K :=
  match o with
  | Done _ w => w
  | Panic w => w
  end.

(** The number of times the autoload probe ran: every run of
    [loadOpenvswitchModule] starts with the system call that asks for a
    socket, which nothing else in the two files makes. *)
Definition probe_runs (t : list event) : nat :=
  length (omap (λ e, match e with
                     | EvSysSocket d r => Some (d, r)
                     | _ => None
                     end) t).

(** The law of the guard: a run gains as many runs of the probe as the
    guard gains in state, so none once the guard is in the state
    "attempted". *)
Definition guard_law {K A} (m : M K A) : Prop :=
  ∀ w, ∃ t,
    trace (final (m w)) = trace w ++ t ∧
    (Nat.b2n (triedLoadOpenvswitchModule w) + probe_runs t)%nat
      = Nat.b2n (triedLoadOpenvswitchModule (final (m w))).

(** A computation all of whose calls are of a kind [P]. *)
Definition emits {K A} (P : event → Prop) (m : M K A) : Prop :=
  ∀ w, ∃ t, trace (final (m w)) = trace w ++ t ∧ Forall P t.

(** The calls that concern the session: all but those of the datapath
    library. *)
Definition session_event (e : event) : Prop :=
  match e with
  | EvLookupDatapath _ _ | EvLookupDatapathByID _ _ | EvFollowFlows _ | EvFlowStop => False
  | _ => True
  end.

(** The multicast subscriptions asked for: descriptor, level, option,
    group and answer. *)
Definition subscriptions (t : list event) : list (Z * Z * Z * Z * option error) :=
  omap (λ e, match e with
             | EvSetsockoptInt d l o v r => Some (d, l, o, v, r)
             | _ => None
             end) t.

(** The datapath names looked up, and the numeric ids looked up. *)
Definition datapath_lookups (t : list event) : list string :=
  omap (λ e, match e with EvLookupDatapath n _ => Some n | _ => None end) t.

Definition numeric_lookups (t : list event) : list Z :=
  omap (λ e, match e with EvLookupDatapathByID i _ => Some i | _ => None end) t.

(** The descriptors opened and closed by plain system calls. *)
Definition sys_opened (t : list event) : list Z :=
  omap (λ e, match e with EvSysSocket d None => Some d | _ => None end) t.

Definition sys_closed (t : list event) : list Z :=
  omap (λ e, match e with EvSysClose d => Some d | _ => None end) t.

(** A non-empty string of decimal digits, and the number it writes. *)
Definition all_digits (s : string) : bool :=
  forallb (λ c, bool_decide (is_Some (Go.digit c))) (list_ascii_of_string s).

Definition is_decimal (s : string) : bool :=
  negb (bool_decide (s = EmptyString)) && all_digits s.

Definition decimal_value (s : string) : Z :=
  fold_left (λ n c, n * 10 + default 0 (Go.digit c)) (list_ascii_of_string s) 0.

(** * Properties *)

Section Monad_facts.
Context {K : Type}.

Lemma bind_Done {A B} (m : M K A) (f : A → M K B) w a w' :
  m w = Done a w' → (m ≫= f) w = f a w'.
Proof. intros E. unfold mbind, M_bind. by rewrite E. Qed.

Lemma bind_Panic {A B} (m : M K A) (f : A → M K B) w w' :
  m w = Panic w' → (m ≫= f) w = Panic w'.
Proof. intros E. unfold mbind, M_bind. by rewrite E. Qed.

Lemma index_lookup {A} (l : list A) (i : Z) (x : A) (w : World K) :
  0 <= i → l !! Z.to_nat i = Some x → index l i w = Done x w.
Proof. intros Hi E. unfold index. rewrite decide_True by done. by rewrite E. Qed.

Lemma call_Done {A} (f : K → A * K) (ev : A → event) (w : World K) :
  call f ev w =
    Done (f (kern w)).1
         (mkWorld (f (kern w)).2 (triedLoadOpenvswitchModule w)
                  (trace w ++ [ev (f (kern w)).1])).
Proof. unfold call. by destruct (f (kern w)). Qed.

End Monad_facts.

Section Family_resolution.
Context `{D : Decls} {K : Type} `{T : Transport K}.

(** The probe always returns, and leaves one of two traces. *)
Lemma loadOpenvswitchModule_run (w : World K) :
  ∃ k' t, loadOpenvswitchModule w =
            Done tt (mkWorld k' (triedLoadOpenvswitchModule w) (trace w ++ t)) ∧
          ((∃ d e, t = [EvSysSocket d (Some e)]) ∨
           (∃ d, t = [EvSysSocket d None; EvSysIoctl d "openvswitch"; EvSysClose d])).
Proof.
  unfold loadOpenvswitchModule.
  rewrite (bind_Done _ _ _ _ _ (call_Done _ _ _)).
  destruct (syscall_Socket (kern w)) as [[d [e|]] k1]; cbn [fst snd].
  - exists k1, [EvSysSocket d (Some e)]. split; [done | left; eauto].
  - unfold call_. rewrite (bind_Done _ _ _ _ _ (call_Done _ _ _)).
    rewrite call_Done. cbn [fst snd kern trace triedLoadOpenvswitchModule].
    eexists _, _. split.
    + rewrite <- !app_assoc. reflexivity.
    + right. eauto.
Qed.

(** A trigger of the guard always returns, leaves the guard in the state
    "attempted", and runs the probe only from the state "not yet
    attempted". *)
Lemma Once_Do_run (w : World K) :
  ∃ k' tg, Once_Do loadOpenvswitchModule w = Done tt (mkWorld k' true (trace w ++ tg)) ∧
           guard_run tg ∧
           (triedLoadOpenvswitchModule w = true → tg = [EvOnceDo false] ∧ k' = kern w) ∧
           (triedLoadOpenvswitchModule w = false → ∃ tg', tg = EvOnceDo true :: tg').
Proof.
  unfold Once_Do. destruct (triedLoadOpenvswitchModule w) eqn:E.
  - exists (kern w), [EvOnceDo false]. repeat split; try done. constructor.
  - destruct (loadOpenvswitchModule_run
                (mkWorld (kern w) false (trace w ++ [EvOnceDo true])))
      as (k' & t & -> & Ht). simpl.
    exists k', (EvOnceDo true :: t). rewrite <- app_assoc. simpl.
    repeat split; try done; [|eauto].
    destruct Ht as [(d & e & ->) | (d & ->)]; constructor.
Qed.

Lemma guard_run_queries tg :
  guard_run tg → family_queries tg = [] ∧ length (guard_triggers tg) = 1%nat.
Proof. by destruct 1. Qed.

Lemma retry_queries sock name f1 tg f2 r2 :
  guard_run tg →
  family_queries (EvLookupGenlFamily sock name f1 (Some (NetlinkError Go.ENOENT))
                    :: tg ++ [EvLookupGenlFamily sock name f2 r2])
    = [(sock, name, Some (NetlinkError Go.ENOENT)); (sock, name, r2)] ∧
  length (guard_triggers
            (EvLookupGenlFamily sock name f1 (Some (NetlinkError Go.ENOENT))
               :: tg ++ [EvLookupGenlFamily sock name f2 r2])) = 1%nat.
Proof. by destruct 1. Qed.

(** Every run of [lookupFamily]: it returns, and what it did and gave is
    one of the behaviours of [resolve_run]. *)
Lemma lookupFamily_run
    (sock : NetlinkSocket) (name : string) (w : World K) :
  ∃ r w' t,
    lookupFamily sock name w = Done r w' ∧
    trace w' = trace w ++ t ∧
    resolve_run sock name t r ∧
    (let first := (LookupGenlFamily sock name (kern w)).1.2 in
     if decide (first = Some (NetlinkError Go.ENOENT))
     then (∃ r2, family_queries t = [(sock, name, first); (sock, name, r2)]) ∧
          length (guard_triggers t) = 1%nat ∧
          triedLoadOpenvswitchModule w' = true
     else family_queries t = [(sock, name, first)] ∧
          guard_triggers t = [] ∧
          triedLoadOpenvswitchModule w' = triedLoadOpenvswitchModule w ∧
          r.2 = first) ∧
    (∀ e, IsKernelLacksODPError e = true ↔ ∃ f, e = familyUnavailableError f).
Proof.
  assert (Hk : ∀ e, IsKernelLacksODPError e = true ↔ ∃ f, e = familyUnavailableError f).
  { intros e. split; [|by intros [f ->]]. destruct e; try done. eauto. }
  unfold lookupFamily.
  rewrite (bind_Done _ _ _ _ _ (call_Done _ _ _)).
  destruct (LookupGenlFamily sock name (kern w)) as [[f1 [e1|]] k1] eqn:E1;
    cbn [fst snd].
  - destruct (decide (e1 = NetlinkError Go.ENOENT)) as [->|Hne].
    + match goal with |- context [mbind _ (Once_Do _) ?b] =>
        destruct (Once_Do_run b) as (k2 & tg & Hg & Hrun & _) end.
      rewrite (bind_Done _ _ _ _ _ Hg).
      rewrite (bind_Done _ _ _ _ _ (call_Done _ _ _)).
      cbn [kern trace triedLoadOpenvswitchModule].
      destruct (LookupGenlFamily sock name k2) as [[f2 [e2|]] k3] eqn:E2;
        cbn [fst snd].
      * destruct (decide (e2 = NetlinkError Go.ENOENT)) as [->|Hne2].
        { eexists _, _,
            (EvLookupGenlFamily sock name f1 (Some (NetlinkError Go.ENOENT))
               :: tg ++ [EvLookupGenlFamily sock name f2 _]).
          split; [reflexivity|].
          cbn [trace triedLoadOpenvswitchModule].
          split; [by rewrite <- !app_assoc|].
          split; [by constructor|].
          split; [|done].
          rewrite decide_True by done.
          destruct (retry_queries sock name f1 tg f2
                      (Some (NetlinkError Go.ENOENT)) Hrun) as [-> ->].
          eauto. }
        { eexists _, _,
            (EvLookupGenlFamily sock name f1 (Some (NetlinkError Go.ENOENT))
               :: tg ++ [EvLookupGenlFamily sock name f2 _]).
          split; [reflexivity|].
          cbn [trace triedLoadOpenvswitchModule].
          split; [by rewrite <- !app_assoc|].
          split; [by constructor|].
          split; [|done].
          rewrite decide_True by done.
          destruct (retry_queries sock name f1 tg f2 (Some e2) Hrun) as [-> ->].
          eauto. }
      * eexists _, _,
            (EvLookupGenlFamily sock name f1 (Some (NetlinkError Go.ENOENT))
               :: tg ++ [EvLookupGenlFamily sock name f2 None]);
          (split; [reflexivity|]);
          cbn [trace triedLoadOpenvswitchModule];
          (split; [by rewrite <- !app_assoc|]);
          (split; [by constructor|]);
          (split; [|done]);
          (rewrite decide_True by done);
          destruct (retry_queries sock name f1 tg f2 None Hrun) as [-> ->]; eauto.
    + eexists _, _, [EvLookupGenlFamily sock name f1 (Some e1)].
      split; [reflexivity|]. cbn [trace triedLoadOpenvswitchModule].
      split; [done|]. split; [by constructor|]. split; [|done].
      rewrite decide_False by congruence. done.
  - eexists _, _, [EvLookupGenlFamily sock name f1 None].
    split; [reflexivity|]. cbn [trace triedLoadOpenvswitchModule].
    split; [done|]. split; [by constructor|]. split; [|done].
    rewrite decide_False by congruence. done.
Qed.

(** The probe ends in the state the system calls leave. *)
Lemma loadOpenvswitchModule_end (w : World K) :
  loadOpenvswitchModule w = Done tt (probe_end w).
Proof.
  unfold loadOpenvswitchModule, probe_end.
  rewrite (bind_Done _ _ _ _ _ (call_Done _ _ _)).
  destruct (syscall_Socket (kern w)) as [[d [e|]] k1]; cbn [fst snd]; [done|].
  unfold call_. rewrite (bind_Done _ _ _ _ _ (call_Done _ _ _)).
  rewrite call_Done. cbn [fst snd kern trace triedLoadOpenvswitchModule].
  by rewrite <- !app_assoc.
Qed.

(** A trigger of the guard ends in the state [guard_end]. *)
Lemma Once_Do_end (w : World K) :
  Once_Do loadOpenvswitchModule w = Done tt (guard_end w).
Proof.
  unfold Once_Do, guard_end.
  destruct (triedLoadOpenvswitchModule w); [done|].
  by rewrite loadOpenvswitchModule_end.
Qed.

(** What [lookupFamily] returns and the state it leaves, from the
    answers of the transport. *)
Lemma lookupFamily_end
    (sock : NetlinkSocket) (name : string) (w w' : World K)
    (r : GenlFamily * option error) :
  lookupFamily sock name w = Done r w' →
  let '((f1, e1), k1) := LookupGenlFamily sock name (kern w) in
  let w1 := mkWorld k1 (triedLoadOpenvswitchModule w)
                    (trace w ++ [EvLookupGenlFamily sock name f1 e1]) in
  match e1 with
  | None => r = (f1, None) ∧ w' = w1
  | Some e =>
      if decide (e = NetlinkError Go.ENOENT) then
        let w2 := guard_end w1 in
        let '((f2, e2), k3) := LookupGenlFamily sock name (kern w2) in
        w' = mkWorld k3 true (trace w2 ++ [EvLookupGenlFamily sock name f2 e2]) ∧
        match e2 with
        | None => r = (f2, None)
        | Some e' =>
            if decide (e' = NetlinkError Go.ENOENT)
            then r = (GenlFamily_zero, Some (familyUnavailableError name))
            else r = (GenlFamily_zero, Some e')
        end
      else r = (GenlFamily_zero, Some e) ∧ w' = w1
  end.
Proof.
  unfold lookupFamily.
  rewrite (bind_Done _ _ _ _ _ (call_Done _ _ _)).
  destruct (LookupGenlFamily sock name (kern w)) as [[f1 [e1|]] k1];
    cbn [fst snd]; [|by inversion 1].
  destruct (decide (e1 = NetlinkError Go.ENOENT)) as [->|Hne]; [|by inversion 1].
  rewrite (bind_Done _ _ _ _ _ (Once_Do_end _)).
  rewrite (bind_Done _ _ _ _ _ (call_Done _ _ _)).
  assert (Ht : triedLoadOpenvswitchModule
                 (guard_end (mkWorld k1 (triedLoadOpenvswitchModule w)
                    (trace w ++ [EvLookupGenlFamily sock name f1
                                   (Some (NetlinkError Go.ENOENT))]))) = true).
  { unfold guard_end. cbn [triedLoadOpenvswitchModule].
    by destruct (triedLoadOpenvswitchModule w). }
  rewrite Ht.
  destruct (LookupGenlFamily sock name _) as [[f2 [e2|]] k3];
    cbn [fst snd]; [|by inversion 1].
  destruct (decide (e2 = NetlinkError Go.ENOENT)); by inversion 1.
Qed.

(** C4.  Family resolution always returns.  It puts one query for
    [name] to the transport.  If and only if the answer to it is the
    error ENOENT, it triggers the one-shot autoload guard, once, and
    repeats the same query, once.  An answer ENOENT to the repeated
    query gives the error [familyUnavailableError name], which
    [IsKernelLacksODPError] tells from every other error; every other
    error, of the first or of the repeated query, is returned as it is,
    with no query after it; a family found is returned.  The first
    query is put in the state in which the resolution is entered; the
    guard is triggered in the state that query leaves, where it runs
    the probe (three system calls at most) if it was not attempted
    before; the repeated query is put in the state the guard leaves;
    and the resolution returns what these answers of the transport
    determine, in the state the last of them leaves. *)
Theorem lookupFamily_retries_once_on_ENOENT
    (sock : NetlinkSocket) (name : string) (w : World K) :
  ∃ r w' t,
    lookupFamily sock name w = Done r w' ∧
    trace w' = trace w ++ t ∧
    resolve_run sock name t r ∧
    (let first := (LookupGenlFamily sock name (kern w)).1.2 in
     if decide (first = Some (NetlinkError Go.ENOENT))
     then (∃ r2, family_queries t = [(sock, name, first); (sock, name, r2)]) ∧
          length (guard_triggers t) = 1%nat ∧
          triedLoadOpenvswitchModule w' = true
     else family_queries t = [(sock, name, first)] ∧
          guard_triggers t = [] ∧
          triedLoadOpenvswitchModule w' = triedLoadOpenvswitchModule w ∧
          r.2 = first) ∧
    (∀ e, IsKernelLacksODPError e = true ↔ ∃ f, e = familyUnavailableError f) ∧
    (let '((f1, e1), k1) := LookupGenlFamily sock name (kern w) in
     let w1 := mkWorld k1 (triedLoadOpenvswitchModule w)
                       (trace w ++ [EvLookupGenlFamily sock name f1 e1]) in
     match e1 with
     | None => r = (f1, None) ∧ w' = w1
     | Some e =>
         if decide (e = NetlinkError Go.ENOENT) then
           let w2 := guard_end w1 in
           let '((f2, e2), k3) := LookupGenlFamily sock name (kern w2) in
           w' = mkWorld k3 true (trace w2 ++ [EvLookupGenlFamily sock name f2 e2]) ∧
           match e2 with
           | None => r = (f2, None)
           | Some e' =>
               if decide (e' = NetlinkError Go.ENOENT)
               then r = (GenlFamily_zero, Some (familyUnavailableError name))
               else r = (GenlFamily_zero, Some e')
           end
         else r = (GenlFamily_zero, Some e) ∧ w' = w1
     end).
Proof.
  destruct (lookupFamily_run sock name w) as (r & w' & t & E & Ht & Hr & Hq & Hk).
  exists r, w', t. repeat (split; [done|]).
  by apply lookupFamily_end.
Qed.

End Family_resolution.

Section Session_construction.
Context `{D : Decls} {K : Type} `{T : Transport K}.

Lemma guard_run_no_close tg : guard_run tg → closes tg = [].
Proof. by destruct 1. Qed.

Lemma closes_app t1 t2 : closes (t1 ++ t2) = closes t1 ++ closes t2.
Proof. apply omap_app. Qed.

Lemma resolve_run_no_close sock name t r : resolve_run sock name t r → closes t = [].
Proof.
  destruct 1; try done;
    change (closes (?e :: ?l)) with (closes l);
    by rewrite closes_app, guard_run_no_close.
Qed.

Lemma resolved_no_close sock names fs t : resolved sock names fs t → closes t = [].
Proof.
  induction 1 as [|name names f fs t1 t2 H1 _ IH]; [done|].
  by rewrite closes_app, (resolve_run_no_close _ _ _ _ H1), IH.
Qed.

Lemma resolved_length sock names fs t :
  resolved sock names fs t → length fs = length names.
Proof. induction 1; simpl; congruence. Qed.

Lemma resolved_snoc sock names fs t name f t' :
  resolved sock names fs t →
  resolve_run sock name t' (f, None) →
  resolved sock (names ++ [name]) (fs ++ [f]) (t ++ t').
Proof.
  induction 1 as [|n ns g gs t1 t2 H1 _ IH]; intros H.
  - simpl. rewrite <- (app_nil_r t'). by repeat constructor.
  - simpl. rewrite <- app_assoc. constructor; [done|]. by apply IH.
Qed.

(** One turn of the loop of [newDpifType], at index [i]. *)
Lemma newDpifType_loop_step i idx name old s fams w :
  0 <= i →
  familyNames !! Z.to_nat i = Some name →
  fams !! Z.to_nat i = Some old →
  ∃ f err w1 t,
    lookupFamily s name w = Done (f, err) w1 ∧
    trace w1 = trace w ++ t ∧
    resolve_run s name t (f, err) ∧
    newDpifType_loop (i :: idx) (mkDpif s fams) w =
      match err with
      | Some e => (Dpif_Close (mkDpif s (<[Z.to_nat i := f]> fams));; mret (None, Some e)) w1
      | None => newDpifType_loop idx (mkDpif s (<[Z.to_nat i := f]> fams)) w1
      end.
Proof.
  intros Hi Hn Ho.
  destruct (lookupFamily_run s name w) as ([f err] & w1 & t & E & Ht & Hrun & _).
  exists f, err, w1, t. repeat split; try done.
  cbn [newDpifType_loop sock families].
  rewrite (bind_Done _ _ _ _ _ (index_lookup _ _ _ _ Hi Hn)).
  rewrite (bind_Done _ _ _ _ _ E).
  rewrite (bind_Done _ _ _ _ _ (index_lookup _ _ _ _ Hi Ho)).
  by destruct err.
Qed.

(** The loop of [newDpifType] from index [length done] on: the rest of
    the families is resolved in order, or the first failure closes the
    socket and ends the loop. *)
Lemma newDpifType_loop_run s rest : ∀ done fsd w,
  familyNames = done ++ rest →
  length fsd = length done →
  ∃ r w' t,
    newDpifType_loop (seqZ (Z.of_nat (length done)) (Z.of_nat (length rest)))
                     (mkDpif s (fsd ++ replicate (length rest) GenlFamily_zero)) w
      = Done r w' ∧
    trace w' = trace w ++ t ∧
    ((∃ fs, resolved s rest fs t ∧ r = (Some (mkDpif s (fsd ++ fs)), None)) ∨
     (∃ ok name rest' fs t1 t2 f e cerr,
        rest = ok ++ name :: rest' ∧
        resolved s ok fs t1 ∧
        resolve_run s name t2 (f, Some e) ∧
        t = t1 ++ t2 ++ [EvSockClose s cerr] ∧
        r = (None, Some e))).
Proof.
  induction rest as [|name rest IH]; intros done fsd w Hn Hl.
  - exists (Some (mkDpif s (fsd ++ [])), None), w, []. simpl.
    rewrite !app_nil_r. split; [done|]. split; [done|]. left.
    exists []. rewrite app_nil_r. split; [constructor | done].
  - assert (Hname : familyNames !! Z.to_nat (Z.of_nat (length done)) = Some name).
    { rewrite Nat2Z.id, Hn. by apply list_lookup_middle. }
    assert (Hold : (fsd ++ replicate (length (name :: rest)) GenlFamily_zero)
                     !! Z.to_nat (Z.of_nat (length done)) = Some GenlFamily_zero).
    { rewrite Nat2Z.id, <- Hl. by apply list_lookup_middle. }
    replace (Z.of_nat (length (name :: rest)))
      with (Z.succ (Z.of_nat (length rest))) by (simpl; lia).
    rewrite seqZ_cons by lia. rewrite Z.pred_succ.
    destruct (newDpifType_loop_step _
                (seqZ (Z.succ (Z.of_nat (length done))) (Z.of_nat (length rest)))
                _ _ s _ w (Nat2Z.is_nonneg _) Hname Hold)
      as (f & err & w1 & t1 & E & Ht & Hrun & ->).
    assert (Hins : <[Z.to_nat (Z.of_nat (length done)) := f]>
                     (fsd ++ replicate (length (name :: rest)) GenlFamily_zero)
                   = (fsd ++ [f]) ++ replicate (length rest) GenlFamily_zero).
    { rewrite Nat2Z.id, <- Hl. rewrite insert_app_r_alt by lia.
      rewrite Nat.sub_diag. simpl. by rewrite <- app_assoc. }
    rewrite Hins. destruct err as [e|].
    + unfold Dpif_Close. rewrite (bind_Done _ _ _ _ _ (call_Done _ _ _)).
      cbn [sock]. eexists _, _, (t1 ++ [EvSockClose s _]).
      split; [reflexivity|]. cbn [trace]. split; [by rewrite Ht, <- app_assoc|].
      right. exists [], name, rest, [], [], t1, f, e. eexists.
      repeat split; try done. constructor.
    + destruct (IH (done ++ [name]) (fsd ++ [f]) w1) as (r & w' & t2 & E2 & Ht2 & Hr).
      { by rewrite <- app_assoc. }
      { rewrite !length_app. simpl. lia. }
      replace (Z.of_nat (length (done ++ [name]))) with (Z.succ (Z.of_nat (length done))) in E2
        by (rewrite length_app; simpl; lia).
      exists r, w', (t1 ++ t2). split; [done|].
      split; [by rewrite Ht2, Ht, <- app_assoc|].
      destruct Hr as [(fs & Hres & ->) | (ok & n & rest' & fs & u1 & u2 & g & e & cerr
                                          & -> & Hres & Hfail & -> & ->)].
      * left. exists (f :: fs). split; [by constructor|]. by rewrite <- app_assoc.
      * right. exists (name :: ok), n, rest', (f :: fs), (t1 ++ u1), u2, g, e, cerr.
        repeat split; try done; [by constructor | by rewrite <- app_assoc].
Qed.

(** Every run of [newDpifType]. *)
Lemma newDpifType_run (netlinkType : Z) (w : World K) :
  ∃ r w' t,
    newDpifType netlinkType w = Done r w' ∧
    trace w' = trace w ++ t ∧
    ((∃ e, t = [EvOpenNetlinkSocket netlinkType (inr e)] ∧ r = (None, Some e)) ∨
     (∃ s fs t1,
        t = EvOpenNetlinkSocket netlinkType (inl s) :: t1 ∧
        resolved s familyNames fs t1 ∧
        closes t = [] ∧
        length fs = Z.to_nat FAMILY_COUNT ∧
        r = (Some (mkDpif s fs), None)) ∨
     (∃ s ok name rest fs t1 t2 f e cerr,
        familyNames = ok ++ name :: rest ∧
        resolved s ok fs t1 ∧
        resolve_run s name t2 (f, Some e) ∧
        t = EvOpenNetlinkSocket netlinkType (inl s) :: t1 ++ t2 ++ [EvSockClose s cerr] ∧
        closes t = [s] ∧
        r = (None, Some e))).
Proof.
  unfold newDpifType. rewrite (bind_Done _ _ _ _ _ (call_Done _ _ _)).
  destruct (OpenNetlinkSocket netlinkType (kern w)) as [[s|e] k1]; cbn [fst snd].
  - destruct (newDpifType_loop_run s familyNames [] []
                (mkWorld k1 (triedLoadOpenvswitchModule w)
                   (trace w ++ [EvOpenNetlinkSocket netlinkType (inl s)])))
      as (r & w' & t & E & Ht & Hr); [done..|].
    cbn [trace] in Ht.
    exists r, w', (EvOpenNetlinkSocket netlinkType (inl s) :: t).
    split; [exact E|]. split; [by rewrite Ht, <- app_assoc|].
    destruct Hr as [(fs & Hres & ->) | (ok & n & rest' & fs & u1 & u2 & g & e & cerr
                                        & Hn & Hres & Hfail & -> & ->)].
    + right; left. exists s, fs, t. repeat split; try done.
      * change (closes (?e :: ?l)) with (closes l). by eapply resolved_no_close.
      * by rewrite (resolved_length _ _ _ _ Hres).
    + right; right. exists s, ok, n, rest', fs, u1, u2, g, e, cerr.
      repeat split; try done.
      change (closes (?e :: ?l)) with (closes l).
      rewrite !closes_app, (resolved_no_close _ _ _ _ Hres),
        (resolve_run_no_close _ _ _ _ Hfail). done.
  - eexists _, _, [_]. split; [reflexivity|]. split; [done|]. left. eauto.
Qed.

(** The loop of [newDpifType] from index [length done] on, by the runs
    of [lookupFamily] it makes and the close that follows a failure. *)
Lemma newDpifType_loop_end s rest : ∀ done fsd w r w',
  familyNames = done ++ rest →
  length fsd = length done →
  newDpifType_loop (seqZ (Z.of_nat (length done)) (Z.of_nat (length rest)))
                   (mkDpif s (fsd ++ replicate (length rest) GenlFamily_zero)) w
    = Done r w' →
  (∃ fs, resolves s rest fs w w' ∧ r = (Some (mkDpif s (fsd ++ fs)), None)) ∨
  (∃ ok name rest' fs w2 w3 f e,
     rest = ok ++ name :: rest' ∧
     resolves s ok fs w w2 ∧
     lookupFamily s name w2 = Done (f, Some e) w3 ∧
     r = (None, Some e) ∧
     w' = close_end s w3).
Proof.
  induction rest as [|name rest IH]; intros done fsd w r w' Hn Hl.
  - simpl. rewrite !app_nil_r. inversion 1; subst. left.
    exists []. rewrite app_nil_r. split; [constructor | done].
  - assert (Hname : familyNames !! Z.to_nat (Z.of_nat (length done)) = Some name).
    { rewrite Nat2Z.id, Hn. by apply list_lookup_middle. }
    assert (Hold : (fsd ++ replicate (length (name :: rest)) GenlFamily_zero)
                     !! Z.to_nat (Z.of_nat (length done)) = Some GenlFamily_zero).
    { rewrite Nat2Z.id, <- Hl. by apply list_lookup_middle. }
    replace (Z.of_nat (length (name :: rest)))
      with (Z.succ (Z.of_nat (length rest))) by (simpl; lia).
    rewrite seqZ_cons by lia. rewrite Z.pred_succ.
    destruct (newDpifType_loop_step _
                (seqZ (Z.succ (Z.of_nat (length done))) (Z.of_nat (length rest)))
                _ _ s _ w (Nat2Z.is_nonneg _) Hname Hold)
      as (f & err & w1 & t1 & E & Ht & Hrun & ->).
    assert (Hins : <[Z.to_nat (Z.of_nat (length done)) := f]>
                     (fsd ++ replicate (length (name :: rest)) GenlFamily_zero)
                   = (fsd ++ [f]) ++ replicate (length rest) GenlFamily_zero).
    { rewrite Nat2Z.id, <- Hl. rewrite insert_app_r_alt by lia.
      rewrite Nat.sub_diag. simpl. by rewrite <- app_assoc. }
    rewrite Hins. destruct err as [e|].
    + unfold Dpif_Close. rewrite (bind_Done _ _ _ _ _ (call_Done _ _ _)).
      cbn [sock]. inversion 1; subst. right.
      exists [], name, rest, [], w, w1, f, e.
      repeat split; try done. constructor.
    + intros E2.
      replace (Z.succ (Z.of_nat (length done)))
        with (Z.of_nat (length (done ++ [name]))) in E2
        by (rewrite length_app; simpl; lia).
      apply IH in E2.
      2: { by rewrite <- app_assoc. }
      2: { rewrite !length_app. simpl. lia. }
      destruct E2 as [(fs & Hres & ->) | (ok & n & rest' & fs & w2 & w3 & g & e
                                          & -> & Hres & Hfail & -> & ->)].
      * left. exists (f :: fs). split; [by econstructor|]. by rewrite <- app_assoc.
      * right. exists (name :: ok), n, rest', (f :: fs), w2, w3, g, e.
        repeat split; try done. by econstructor.
Qed.

(** What [newDpifType] returns and the state it leaves, from the answer
    of the transport to the open, the runs of [lookupFamily] and the
    close. *)
Lemma newDpifType_end (netlinkType : Z) (w w' : World K)
    (r : option Dpif * option error) :
  newDpifType netlinkType w = Done r w' →
  match OpenNetlinkSocket netlinkType (kern w) with
  | (inr e, k1) =>
      r = (None, Some e) ∧
      w' = mkWorld k1 (triedLoadOpenvswitchModule w)
                   (trace w ++ [EvOpenNetlinkSocket netlinkType (inr e)])
  | (inl s, k1) =>
      let w1 := mkWorld k1 (triedLoadOpenvswitchModule w)
                        (trace w ++ [EvOpenNetlinkSocket netlinkType (inl s)]) in
      (∃ fs, resolves s familyNames fs w1 w' ∧ r = (Some (mkDpif s fs), None)) ∨
      (∃ ok name rest fs w2 w3 f e,
         familyNames = ok ++ name :: rest ∧
         resolves s ok fs w1 w2 ∧
         lookupFamily s name w2 = Done (f, Some e) w3 ∧
         r = (None, Some e) ∧
         w' = close_end s w3)
  end.
Proof.
  unfold newDpifType. rewrite (bind_Done _ _ _ _ _ (call_Done _ _ _)).
  destruct (OpenNetlinkSocket netlinkType (kern w)) as [[s|e] k1]; cbn [fst snd].
  - intros E. by apply (newDpifType_loop_end s familyNames [] []) in E.
  - by inversion 1.
Qed.

(** C6.  Session construction always returns, in one of three ways.  The
    socket cannot be opened: the error is returned and there is no
    handle.  Or the four families datapath, vport, flow, packet are
    resolved on the opened socket in this order, all with success: the
    handle returned has exactly these four families, and the socket is
    not closed.  Or the resolution of one family fails after those before
    it succeeded: no further family is resolved, the socket is closed,
    and the error is returned with no handle.  Which of the three it is
    lies with the transport: the socket is asked of it in the state in
    which the construction is entered, and what it answers is the
    socket of the handle or the error returned; the families are
    resolved by runs of [lookupFamily] on that socket, the first in the
    state the open left and each next one in the state the one before
    left; after a failure the socket is closed in the state the failed
    resolution left, and the construction returns in the state the
    close leaves, otherwise in the state the last resolution left. *)
Theorem newDpifType_all_or_nothing (netlinkType : Z) (w : World K) :
  ∃ r w' t,
    newDpifType netlinkType w = Done r w' ∧
    trace w' = trace w ++ t ∧
    ((∃ e, t = [EvOpenNetlinkSocket netlinkType (inr e)] ∧ r = (None, Some e)) ∨
     (∃ s fs t1,
        t = EvOpenNetlinkSocket netlinkType (inl s) :: t1 ∧
        resolved s familyNames fs t1 ∧
        closes t = [] ∧
        length fs = Z.to_nat FAMILY_COUNT ∧
        r = (Some (mkDpif s fs), None)) ∨
     (∃ s ok name rest fs t1 t2 f e cerr,
        familyNames = ok ++ name :: rest ∧
        resolved s ok fs t1 ∧
        resolve_run s name t2 (f, Some e) ∧
        t = EvOpenNetlinkSocket netlinkType (inl s) :: t1 ++ t2 ++ [EvSockClose s cerr] ∧
        closes t = [s] ∧
        r = (None, Some e))) ∧
    match OpenNetlinkSocket netlinkType (kern w) with
    | (inr e, k1) =>
        r = (None, Some e) ∧
        w' = mkWorld k1 (triedLoadOpenvswitchModule w)
                     (trace w ++ [EvOpenNetlinkSocket netlinkType (inr e)])
    | (inl s, k1) =>
        let w1 := mkWorld k1 (triedLoadOpenvswitchModule w)
                          (trace w ++ [EvOpenNetlinkSocket netlinkType (inl s)]) in
        (∃ fs, resolves s familyNames fs w1 w' ∧ r = (Some (mkDpif s fs), None)) ∨
        (∃ ok name rest fs w2 w3 f e,
           familyNames = ok ++ name :: rest ∧
           resolves s ok fs w1 w2 ∧
           lookupFamily s name w2 = Done (f, Some e) w3 ∧
           r = (None, Some e) ∧
           w' = close_end s w3)
    end.
Proof.
  destruct (newDpifType_run netlinkType w) as (r & w' & t & E & Ht & Hr).
  exists r, w', t. repeat (split; [done|]).
  by apply newDpifType_end.
Qed.

(** C7.  [Reopen] always returns after exactly one call to the
    transport, the opening of a socket of the kind of the handle's own
    socket, made in the state in which [Reopen] is entered; the state
    the transport leaves is the state in which [Reopen] returns.  It
    puts no query for a family and does not trigger the autoload guard.
    When the transport opens a socket, the handle returned carries that
    socket, and its [Families()] are those of the original handle;
    when the transport answers an error, that error is returned with
    no handle. *)
Theorem Reopen_keeps_families (dpif : Dpif) (w : World K) :
  ∃ r w' a,
    Reopen dpif w = Done r w' ∧
    a = (OpenNetlinkSocket (sockType (sock dpif)) (kern w)).1 ∧
    w' = mkWorld (OpenNetlinkSocket (sockType (sock dpif)) (kern w)).2
                 (triedLoadOpenvswitchModule w)
                 (trace w ++ [EvOpenNetlinkSocket (sockType (sock dpif)) a]) ∧
    trace w' = trace w ++ [EvOpenNetlinkSocket (sockType (sock dpif)) a] ∧
    family_queries [EvOpenNetlinkSocket (sockType (sock dpif)) a] = [] ∧
    triedLoadOpenvswitchModule w' = triedLoadOpenvswitchModule w ∧
    match a with
    | inl s => ∃ dpif', r = (Some dpif', None) ∧ sock dpif' = s ∧
                        Families dpif' = Families dpif ∧
                        dpif' = mkDpif s (families dpif)
    | inr e => r = (None, Some e)
    end.
Proof.
  unfold Reopen. rewrite (bind_Done _ _ _ _ _ (call_Done _ _ _)).
  destruct (OpenNetlinkSocket (sockType (sock dpif)) (kern w)) as [[s|e] k1];
    cbn [fst snd]; eexists _, _, _; (split; [reflexivity|]);
    repeat split; eauto.
Qed.

End Session_construction.

Section Datapath_resolution.
Context `{D : Decls} {K : Type} `{T : Transport K}.

Lemma digit_range c d : Go.digit c = Some d → 0 <= d <= 9.
Proof.
  unfold Go.digit. intros H.
  destruct (48 <=? Z.of_N (N_of_ascii c)) eqn:E1;
    destruct (Z.of_N (N_of_ascii c) <=? 57) eqn:E2; simpl in H; try done.
  inversion H. lia.
Qed.

Lemma parseUint_loop_range s0 s : ∀ n v,
  0 <= n <= Go.maxUint32 →
  Go.parseUint_loop s0 n s = (v, None) → 0 <= v <= Go.maxUint32.
Proof.
  induction s as [|c s IH]; intros n v Hn H; simpl in H.
  - by inversion H; subst.
  - destruct (Go.digit c) as [d|] eqn:Ed; [|done].
    apply digit_range in Ed.
    destruct (2 ^ 64 `div` 10 + 1 <=? n); [done|].
    destruct ((2 ^ 64 <=? n * 10 + d) || (Go.maxUint32 <? n * 10 + d)) eqn:Eb; [done|].
    apply orb_false_iff in Eb as [_ Eb]. apply Z.ltb_ge in Eb.
    apply (IH (n * 10 + d) v); [lia | done].
Qed.

(** A successful [ParseUint(name, 10, 32)] gives an unsigned 32-bit value. *)
Lemma ParseUint_10_32_range s v :
  Go.ParseUint_10_32 s = (v, None) → 0 <= v < 2 ^ 32.
Proof.
  unfold Go.ParseUint_10_32. destruct s as [|c s]; [done|]. intros H.
  apply parseUint_loop_range in H; unfold Go.maxUint32 in *; lia.
Qed.

(** Every run of [lookupDatapath]. *)
Lemma lookupDatapath_run (dpif : Dpif) (name : string) (w : World K) :
  ∃ r w' t,
    lookupDatapath dpif name w = Done r w' ∧
    trace w' = trace w ++ t ∧
    let '((dph, e1), k1) := LookupDatapath dpif name (kern w) in
    match e1 with
    | None => t = [EvLookupDatapath name None] ∧ r = (Some dph, name, None)
    | Some e =>
        if IsNoSuchDatapathError e then
          match Go.ParseUint_10_32 name with
          | (ifindex, None) =>
              let '((dp, e2), k2) := LookupDatapathByID dpif (DatapathID ifindex) k1 in
              0 <= ifindex < 2 ^ 32 ∧
              t = [EvLookupDatapath name (Some e);
                   EvLookupDatapathByID (DatapathID ifindex) e2] ∧
              match e2 with
              | None => r = (Some (Handle dp), Name dp, None)
              | Some e' =>
                  if IsNoSuchDatapathError e'
                  then r = (None, EmptyString, Some (cannotFind name))
                  else r = (None, EmptyString, Some e')
              end
          | (_, Some _) =>
              t = [EvLookupDatapath name (Some e)] ∧
              r = (None, EmptyString, Some (cannotFind name))
          end
        else t = [EvLookupDatapath name (Some e)] ∧ r = (None, EmptyString, Some e)
    end.
Proof.
  unfold lookupDatapath. rewrite (bind_Done _ _ _ _ _ (call_Done _ _ _)).
  destruct (LookupDatapath dpif name (kern w)) as [[dph [e|]] k1]; cbn [fst snd].
  - destruct (IsNoSuchDatapathError e); cbn [negb].
    + destruct (Go.ParseUint_10_32 name) as [ifindex [pe|]] eqn:Ep.
      * eexists _, _, _. split; [reflexivity|]. by cbn [trace].
      * rewrite (bind_Done _ _ _ _ _ (call_Done _ _ _)).
        cbn [kern trace triedLoadOpenvswitchModule].
        destruct (LookupDatapathByID dpif (DatapathID ifindex) k1)
          as [[dp [e'|]] k2]; cbn [fst snd].
        -- destruct (IsNoSuchDatapathError e'); cbn [negb];
             eexists _, _, _; (split; [reflexivity|]); cbn [trace];
             (split; [by rewrite <- app_assoc|]);
             (split; [by eapply ParseUint_10_32_range|]); done.
        -- eexists _, _, _. split; [reflexivity|]. cbn [trace].
           split; [by rewrite <- app_assoc|].
           split; [by eapply ParseUint_10_32_range|]. done.
    + eexists _, _, _. split; [reflexivity|]. by cbn [trace].
  - eexists _, _, _. split; [reflexivity|]. by cbn [trace].
Qed.

(** C5.  Datapath resolution always returns.  It first looks the
    identifier up as a name, and on success returns at once.  A failure
    of that lookup that is not "no such datapath" is returned as it is,
    with no lookup by number.  Otherwise, if the identifier parses as an
    unsigned 32-bit integer, it looks that number up: on success it
    returns the handle with the name recorded in the datapath; a failure
    that is not "no such datapath" is returned as it is.  When the number
    is not found either, or the identifier does not parse (no lookup by
    number is made then), the result is the one error
    [Cannot find datapath "identifier"]. *)
Theorem lookupDatapath_resolution (dpif : Dpif) (name : string) (w : World K) :
  ∃ r w' t,
    lookupDatapath dpif name w = Done r w' ∧
    trace w' = trace w ++ t ∧
    let '((dph, e1), k1) := LookupDatapath dpif name (kern w) in
    match e1 with
    | None => t = [EvLookupDatapath name None] ∧ r = (Some dph, name, None)
    | Some e =>
        if IsNoSuchDatapathError e then
          match Go.ParseUint_10_32 name with
          | (ifindex, None) =>
              let '((dp, e2), k2) := LookupDatapathByID dpif (DatapathID ifindex) k1 in
              0 <= ifindex < 2 ^ 32 ∧
              t = [EvLookupDatapath name (Some e);
                   EvLookupDatapathByID (DatapathID ifindex) e2] ∧
              match e2 with
              | None => r = (Some (Handle dp), Name dp, None)
              | Some e' =>
                  if IsNoSuchDatapathError e'
                  then r = (None, EmptyString, Some (cannotFind name))
                  else r = (None, EmptyString, Some e')
              end
          | (_, Some _) =>
              t = [EvLookupDatapath name (Some e)] ∧
              r = (None, EmptyString, Some (cannotFind name))
          end
        else t = [EvLookupDatapath name (Some e)] ∧ r = (None, EmptyString, Some e)
    end.
Proof. apply lookupDatapath_run. Qed.

(** C10.  When the lookup of the identifier as a name succeeds,
    [lookupDatapath] returns the handle found together with the
    identifier itself as the name, after that one call and no other. *)
Theorem lookupDatapath_name_found
    (dpif : Dpif) (name : string) (w : World K) (dph : DatapathHandle) (k1 : K) :
  LookupDatapath dpif name (kern w) = ((dph, None), k1) →
  lookupDatapath dpif name w =
    Done (Some dph, name, None)
         (mkWorld k1 (triedLoadOpenvswitchModule w)
                  (trace w ++ [EvLookupDatapath name None])).
Proof.
  intros E. unfold lookupDatapath.
  rewrite (bind_Done _ _ _ _ _ (call_Done _ _ _)). by rewrite E.
Qed.

End Datapath_resolution.

Section Flow_following.
Context `{D : Decls} {K : Type} `{T : Transport K}.

(** The multicast group of a family of a handle with its four families. *)
Lemma getMCGroup_run (d : Dpif) (name : string) (w : World K) :
  length (families d) = Z.to_nat FAMILY_COUNT →
  ∃ g err, getMCGroup d FLOW name w = Done (g, err) w.
Proof.
  intros Hl. destruct d as [s fs]. cbn [families] in Hl.
  destruct fs as [|f0 [|f1 [|f2 [|f3 [|]]]]]; try done.
  unfold getMCGroup. cbn [families].
  rewrite (bind_Done _ _ w f2 w); [|by apply index_lookup].
  destruct (mcGroups f2 !! name) as [g|]; [by eexists _, _|].
  rewrite (bind_Done _ _ w "ovs_flow"%string w); [|by apply index_lookup].
  by eexists _, _.
Qed.

(** Every run of [NewDpifOvs]: a handle on a socket opened in this run
    and still open, or an error with every socket opened in this run
    closed again. *)
Lemma NewDpifOvs_run (follow : bool) (w : World K) :
  ∃ r w' t,
    NewDpifOvs follow w = Done r w' ∧
    trace w' = trace w ++ t ∧
    ((∃ d t1, r = (Some d, None) ∧
              t = EvOpenNetlinkSocket Go.NETLINK_GENERIC (inl (sock d)) :: t1 ∧
              closes t = []) ∨
     (∃ e, r = (None, Some e) ∧
           (t = [EvOpenNetlinkSocket Go.NETLINK_GENERIC (inr e)] ∨
            ∃ s t1, t = EvOpenNetlinkSocket Go.NETLINK_GENERIC (inl s) :: t1 ∧
                    closes t = [s]))).
Proof.
  unfold NewDpifOvs.
  destruct (newDpifType_run Go.NETLINK_GENERIC w) as (r & w1 & t & E & Ht & Hr).
  rewrite (bind_Done _ _ _ _ _ E).
  destruct Hr as [(e & -> & ->) | [(s & fs & t1 & -> & Hres & Hcl & Hlen & ->) |
                  (s & ok & n & rest & fs & t1 & t2 & f & e & cerr
                   & Hn & Hres & Hfail & -> & Hcl & ->)]].
  - eexists _, _, _. split; [reflexivity|]. split; [exact Ht|]. right. eauto.
  - cbn [deref]. change (mret (mkDpif s fs) ≫= ?k) with (λ v : World K, k (mkDpif s fs) v).
    cbn beta.
    change (closes (?a :: t1)) with (closes t1) in Hcl.
    destruct (getMCGroup_run (mkDpif s fs) "ovs_flow" w1 Hlen) as (g & err & Eg).
    rewrite (bind_Done _ _ _ _ _ Eg). destruct err as [e|].
    + unfold Dpif_Close. rewrite (bind_Done _ _ _ _ _ (call_Done _ _ _)). cbn [sock].
      eexists _, _,
        (EvOpenNetlinkSocket Go.NETLINK_GENERIC (inl s) :: t1 ++ [EvSockClose s _]).
      split; [reflexivity|]. cbn [trace].
      split; [by rewrite Ht, <- app_assoc|]. right. eexists. split; [done|].
      right. eexists s, _. split; [reflexivity|].
      change (closes (?a :: ?l)) with (closes l).
      by rewrite closes_app, Hcl.
    + destruct follow.
      * rewrite (bind_Done _ _ _ _ _ (call_Done _ _ _)). cbn [sock fd].
        destruct (SetsockoptInt (fd s) SOL_NETLINK Go.NETLINK_ADD_MEMBERSHIP g (kern w1))
          as [[e|] k2]; cbn [fst snd].
        -- unfold Dpif_Close. rewrite (bind_Done _ _ _ _ _ (call_Done _ _ _)). cbn [sock].
           eexists _, _,
             (EvOpenNetlinkSocket Go.NETLINK_GENERIC (inl s)
                :: t1 ++ [EvSetsockoptInt (fd s) SOL_NETLINK
                            Go.NETLINK_ADD_MEMBERSHIP g (Some e);
                          EvSockClose s _]).
           split; [reflexivity|]. cbn [trace].
           split; [by rewrite Ht, <- !app_assoc|]. right. eexists. split; [done|].
           right. eexists s, _. split; [reflexivity|].
           change (closes (?a :: ?l)) with (closes l).
           by rewrite closes_app, Hcl.
        -- eexists _, _,
             (EvOpenNetlinkSocket Go.NETLINK_GENERIC (inl s)
                :: t1 ++ [EvSetsockoptInt (fd s) SOL_NETLINK
                            Go.NETLINK_ADD_MEMBERSHIP g None]).
           split; [reflexivity|]. cbn [trace].
           split; [by rewrite Ht, <- !app_assoc|]. left. eexists _, _.
           split; [done|]. split; [reflexivity|].
           change (closes (?a :: ?l)) with (closes l).
           by rewrite closes_app, Hcl.
      * eexists _, _, _. split; [reflexivity|]. split; [exact Ht|]. left.
        eexists _, _. split; [done|]. split; [reflexivity|]. done.
  - eexists _, _, _. split; [reflexivity|]. split; [exact Ht|]. right.
    eexists. split; [done|]. right. eauto.
Qed.

(** Datapath resolution closes nothing, and gives a handle when it gives
    no error. *)
Lemma lookupDatapath_no_close (d : Dpif) (name : string) (w : World K) :
  ∃ r w' t,
    lookupDatapath d name w = Done r w' ∧
    trace w' = trace w ++ t ∧
    closes t = [] ∧
    (r.2 = None → is_Some r.1.1).
Proof.
  destruct (lookupDatapath_run d name w) as (r & w' & t & E & Ht & Hr).
  exists r, w', t. split; [done|]. split; [done|].
  destruct (LookupDatapath d name (kern w)) as [[dph [e|]] k1].
  - destruct (IsNoSuchDatapathError e).
    + destruct (Go.ParseUint_10_32 name) as [ifindex [pe|]].
      * by destruct Hr as [-> ->].
      * destruct (LookupDatapathByID d (DatapathID ifindex) k1) as [[dp [e'|]] k2].
        -- destruct Hr as (_ & -> & Hr).
           by destruct (IsNoSuchDatapathError e'); subst r.
        -- destruct Hr as (_ & -> & ->). split; [done|]. by eexists.
    + by destruct Hr as [-> ->].
  - destruct Hr as [-> ->]. split; [done|]. by eexists.
Qed.

(** Every run of [FollowOvsFlows]: the session cannot be opened; or the
    datapath is not resolved on the opened session; or [FollowFlows] is
    called on the datapath, and its answer is returned with the function
    literal that [stop_func] stands for. *)
Lemma FollowOvsFlows_run (w : World K) :
  ∃ r w' t,
    FollowOvsFlows w = Done r w' ∧
    trace w' = trace w ++ t ∧
    ((∃ e, r = (None, None, Some e) ∧
           (t = [EvOpenNetlinkSocket Go.NETLINK_GENERIC (inr e)] ∨
            ∃ s t1, t = EvOpenNetlinkSocket Go.NETLINK_GENERIC (inl s) :: t1 ∧
                    closes t = [s])) ∨
     (∃ d e t1, r = (None, None, Some e) ∧
                t = EvOpenNetlinkSocket Go.NETLINK_GENERIC (inl (sock d)) :: t1 ∧
                closes t = []) ∨
     (∃ d h k res stop err t1,
        FollowFlows h k = ((res, stop, err), kern w') ∧
        r = (res, Some (stop_func stop d), err) ∧
        t = EvOpenNetlinkSocket Go.NETLINK_GENERIC (inl (sock d))
              :: t1 ++ [EvFollowFlows err] ∧
        closes t = [])).
Proof.
  unfold FollowOvsFlows.
  destruct (NewDpifOvs_run true w) as (r & w1 & t & E & Ht & Hr).
  rewrite (bind_Done _ _ _ _ _ E).
  destruct Hr as [(d & t1 & -> & -> & Hcl) | (e & -> & Hr)].
  - cbn [deref]. change (mret d ≫= ?k) with (λ v : World K, k d v). cbn beta.
    destruct (lookupDatapath_no_close d "ovs-system" w1)
      as ([[dp nm] err] & w2 & t2 & E2 & Ht2 & Hcl2 & Hsome).
    rewrite (bind_Done _ _ _ _ _ E2). destruct err as [e|].
    + eexists _, _,
        ((EvOpenNetlinkSocket Go.NETLINK_GENERIC (inl (sock d)) :: t1) ++ t2).
      split; [reflexivity|].
      split; [by rewrite Ht2, Ht, <- app_assoc|]. right; left.
      exists d, e. eexists. split; [done|]. split; [reflexivity|].
      by rewrite closes_app, Hcl, Hcl2.
    + cbn [fst snd] in Hsome. destruct (Hsome eq_refl) as [h ->]. cbn [deref].
      change (mret h ≫= ?k) with (λ v : World K, k h v). cbn beta.
      rewrite (bind_Done _ _ _ _ _ (call_Done _ _ _)).
      destruct (FollowFlows h (kern w2)) as [[[res stop] err] k3] eqn:Ef;
        cbn [fst snd].
      eexists _, _,
        ((EvOpenNetlinkSocket Go.NETLINK_GENERIC (inl (sock d)) :: t1)
           ++ t2 ++ [EvFollowFlows err]).
      split; [reflexivity|].
      cbn [trace kern].
      split; [by rewrite Ht2, Ht, <- !app_assoc|]. right; right.
      exists d, h, (kern w2), res, stop, err, (t1 ++ t2).
      split; [done|]. split; [done|]. split; [by rewrite <- !app_assoc|].
      by rewrite !closes_app, Hcl, Hcl2.
  - eexists _, _, _. split; [reflexivity|]. split; [exact Ht|]. left. eauto.
Qed.

(** One invocation of the function literal. *)
Lemma stop_func_run (stop : option (K → option K)) (d : Dpif) (v : World K) :
  stop_func stop d v = stop_then_close (sock d) stop v.
Proof.
  unfold stop_then_close, stop_func, call_stop, deref, Dpif_Close, call, run_stop,
    mbind, M_bind, mret, M_ret.
  destruct stop as [f|]; [|done].
  destruct (f (kern v)) as [k1|]; [|done].
  cbn [kern trace triedLoadOpenvswitchModule].
  destruct (NetlinkSocket_Close (sock d) k1) as [c k2]. cbn [fst snd].
  by rewrite <- app_assoc.
Qed.

(** What [FollowOvsFlows] has done when it returns a stop function. *)
Lemma FollowOvsFlows_stop_func
    (w w' : World K) (res : option FlowChan) (stopf : M K unit) (err : option error) :
  FollowOvsFlows w = Done (res, Some stopf, err) w' →
  ∃ d stop t,
    trace w' = trace w ++ EvOpenNetlinkSocket Go.NETLINK_GENERIC (inl (sock d)) :: t ∧
    (∃ h k, FollowFlows h k = ((res, stop, err), kern w')) ∧
    stopf = stop_func stop d.
Proof.
  intros E.
  destruct (FollowOvsFlows_run w) as (r & w1 & t & E1 & Ht & Hr).
  rewrite E in E1. inversion E1; subst r w1; clear E1.
  destruct Hr as [(e & He & _) | [(d & e & t1 & He & _) |
                  (d & h & k & res' & stop & err' & t1 & Ef & He & -> & _)]];
    try done.
  inversion He; subst res' stopf err'; clear He.
  exists d, stop, (t1 ++ [EvFollowFlows err]). eauto.
Qed.

(** C9.  A stop function returned by [FollowOvsFlows] belongs to a
    session socket [s] opened in that run.  On every invocation it first
    calls the stop function [stop] that [FollowFlows] gave, and only then,
    on the state that call left, closes [s]: the trace gains the stop and
    then the close, in this order.  When the call of [stop] panics (or
    [stop] is nil), nothing is closed. *)
Theorem stop_func_stops_then_closes
    (w w' : World K) (res : option FlowChan) (stopf : M K unit) (err : option error) :
  FollowOvsFlows w = Done (res, Some stopf, err) w' →
  ∃ s stop t,
    trace w' = trace w ++ EvOpenNetlinkSocket Go.NETLINK_GENERIC (inl s) :: t ∧
    (∃ h k, FollowFlows h k = ((res, stop, err), kern w')) ∧
    ∀ v : World K, stopf v = stop_then_close s stop v.
Proof.
  intros E.
  destruct (FollowOvsFlows_stop_func _ _ _ _ _ E) as (d & stop & t & Ht & Hf & ->).
  exists (sock d), stop, t. split; [done|]. split; [done|].
  intros v. apply stop_func_run.
Qed.


End Flow_following.

Section Codec_properties.
Context `{D : Decls}.

Lemma align_bounds (n a : Z) : 0 < a → n <= align n a < n + a.
Proof.
  intros Ha. unfold align.
  pose proof (Z.div_mod (n + a - 1) a ltac:(lia)) as E.
  pose proof (Z.mod_pos_bound (n + a - 1) a Ha) as B.
  lia.
Qed.

Lemma decode_encode (n : nat) (z : Z) :
  decode_uint (encode_int n z) = z mod 2 ^ (Z.of_nat n * 8).
Proof.
  unfold decode_uint, encode_int. destruct hostBigEndian.
  - by rewrite rev_involutive, le_combine_split.
  - apply le_combine_split.
Qed.

Lemma length_encode_int (n : nat) (z : Z) : length (encode_int n z) = n.
Proof.
  unfold encode_int. destruct hostBigEndian;
    [rewrite length_rev|]; apply length_le_split.
Qed.

(** Bytes put at an offset inside a buffer are the bytes found there,
    whatever follows the buffer. *)
Lemma bytes_at_put (m rest bs : list byte) (o : Z) :
  0 <= o → (Z.to_nat o + length bs <= length m)%nat →
  bytes_at (bytes_put m o bs ++ rest) o (length bs) = bs.
Proof.
  intros Ho Hl. unfold bytes_at, bytes_put.
  rewrite <- !app_assoc.
  rewrite drop_app_length'; [|rewrite length_take; lia].
  by rewrite take_app_length.
Qed.

Lemma wrap_int32_mod (z : Z) : Go.wrap_int32 (z mod 2 ^ 32) = Go.wrap_int32 z.
Proof.
  unfold Go.wrap_int32. change (2 ^ 32) with 4294967296.
  change (2 ^ 31) with 2147483648.
  f_equal. rewrite <- (Zplus_mod_idemp_l z). reflexivity.
Qed.

Lemma wrap_int32_range (z : Z) : - 2 ^ 31 <= Go.wrap_int32 z < 2 ^ 31.
Proof.
  unfold Go.wrap_int32.
  pose proof (Z.mod_pos_bound (z + 2 ^ 31) (2 ^ 32) ltac:(done)) as B.
  revert B. generalize ((z + 2 ^ 31) mod 2 ^ 32). intros r B.
  change (2 ^ 32) with 4294967296 in B. change (2 ^ 31) with 2147483648. lia.
Qed.

Lemma wrap_int32_small (z : Z) : - 2 ^ 31 <= z < 2 ^ 31 → Go.wrap_int32 z = z.
Proof.
  intros H. unfold Go.wrap_int32. rewrite Z.mod_small; [lia|].
  change (2 ^ 32) with 4294967296. change (2 ^ 31) with 2147483648 in *. lia.
Qed.

Lemma wrap_uint32_int32 (z : Z) : Go.wrap_uint32 (Go.wrap_int32 z) = Go.wrap_uint32 z.
Proof.
  unfold Go.wrap_uint32, Go.wrap_int32. rewrite Zminus_mod_idemp_l.
  f_equal. lia.
Qed.

(** The two conversions of [putOvsHeader] and [datapathID], one after the
    other, on a value of the type [DatapathID]. *)
Lemma DatapathID_int32 (x : Z) :
  DatapathID_range x → DatapathID (Go.wrap_int32 (Go.wrap_int32 x)) = x.
Proof.
  unfold DatapathID_range, DatapathID.
  rewrite (wrap_int32_small (Go.wrap_int32 x)) by apply wrap_int32_range.
  destruct DatapathID_signed; intros H.
  - by rewrite !wrap_int32_small by (try apply wrap_int32_range; done).
  - rewrite wrap_uint32_int32. unfold Go.wrap_uint32. by apply Z.mod_small.
Qed.

(** C8.  A header written with [putOvsHeader] for the datapath id [X]
    at the end of a message under construction is read back by
    [takeOvsHeader] from the offset where the message ended before, and
    [datapathID] of the header read is [X]: for every [X] that the type
    [DatapathID] holds, whatever bytes follow the header, and in both
    byte orders. *)
Theorem ovsHeader_roundtrip (b : NlMsgBuilder) (rest : list byte) (X : Z) :
  DatapathID_range X →
  ∃ h p',
    takeOvsHeader (mkNlMsgParser (buf (putOvsHeader X b) ++ rest)
                                 (Z.of_nat (length (buf b))))
      = ((Some h, None), p') ∧
    datapathID (load_OvsHeader h) = X.
Proof.
  intros HX.
  pose proof (align_bounds (Z.of_nat (length (buf b))) Go.NLMSG_ALIGNTO
                ltac:(done)) as Ha.
  set (len := Z.of_nat (length (buf b))) in *.
  set (apos := align len Go.NLMSG_ALIGNTO) in *.
  assert (Hput : buf (putOvsHeader X b) =
                 bytes_put (buf b ++ replicate (Z.to_nat (apos - len + SizeofOvsHeader))
                                               Init.Byte.x00)
                           apos (encode_int 4 (Go.wrap_int32 X))) by reflexivity.
  assert (Hlen : length (buf (putOvsHeader X b)) = Z.to_nat (apos + SizeofOvsHeader)).
  { rewrite Hput. unfold bytes_put.
    rewrite !length_app, length_take, length_drop, !length_app, length_replicate,
      length_encode_int.
    unfold SizeofOvsHeader, len in *. lia. }
  unfold takeOvsHeader, AlignAdvance. cbn [pos data]. fold apos.
  rewrite decide_True.
  2:{ rewrite length_app, Hlen. unfold SizeofOvsHeader in *. lia. }
  eexists _, _. split; [reflexivity|].
  unfold datapathID, load_OvsHeader, ovsHeaderAt. cbn [mem off data DpIfIndex].
  rewrite Hput.
  rewrite <- (length_encode_int 4 (Go.wrap_int32 X)) at 2.
  rewrite bytes_at_put.
  - rewrite decode_encode. change (Z.of_nat 4 * 8) with 32.
    rewrite wrap_int32_mod. by apply DatapathID_int32.
  - lia.
  - rewrite length_app, length_replicate, length_encode_int.
    unfold SizeofOvsHeader, len in *. lia.
Qed.

(** What [CheckGenlMsghdr] answers on a message that holds the header. *)
Lemma CheckGenlMsghdr_run (cmd altCmd : Z) (msg1 msg2 : NlMsgParser) (gpos : Z) :
  AlignAdvance Go.NLMSG_ALIGNTO SizeofGenlMsghdr msg1 = ((gpos, None), msg2) →
  let reply := GenlMsghdr_Cmd (mkView (data msg2) gpos) in
  (reply = cmd ∨ (0 <= altCmd ∧ reply = altCmd) →
   CheckGenlMsghdr cmd altCmd msg1 = ((Some (mkView (data msg2) gpos), None), msg2)) ∧
  (¬ (reply = cmd ∨ (0 <= altCmd ∧ reply = altCmd)) →
   ∃ e, CheckGenlMsghdr cmd altCmd msg1 = ((None, Some e), msg2)).
Proof.
  intros E reply. unfold CheckGenlMsghdr. rewrite E. fold reply. split.
  - intros [H|H].
    + by rewrite decide_True.
    + destruct (decide (reply = cmd)); [done|]. by rewrite decide_True.
  - intros H. rewrite decide_False by tauto. rewrite decide_False by tauto. eauto.
Qed.

(** C3.  On a reply whose netlink header passes the check of the family
    id and that holds a generic netlink header and the header of the
    subsystem, [checkNlMsgHeaders] accepts the command [reply] of the
    message, returning the two headers and no error, when [reply] is the
    expected command, and also when the family is DATAPATH, VPORT or FLOW
    and [reply] is OVS_DP_CMD_NEW, OVS_VPORT_CMD_NEW or OVS_FLOW_CMD_NEW
    respectively; for every other command, and for every command other
    than the expected one in any other family (PACKET), it returns an
    error. *)
Theorem checkNlMsgHeaders_accepts_command
    (dpif : Dpif) (fam : GenlFamily) (msg msg1 msg2 msg3 : NlMsgParser)
    (nlh : option view) (gpos opos family cmd : Z) :
  0 <= OVS_DP_CMD_NEW → 0 <= OVS_VPORT_CMD_NEW → 0 <= OVS_FLOW_CMD_NEW →
  0 <= family →
  families dpif !! Z.to_nat family = Some fam →
  ExpectNlMsghdr (id fam) msg = ((nlh, None), msg1) →
  AlignAdvance Go.NLMSG_ALIGNTO SizeofGenlMsghdr msg1 = ((gpos, None), msg2) →
  AlignAdvance Go.NLMSG_ALIGNTO SizeofOvsHeader msg2 = ((opos, None), msg3) →
  let reply := GenlMsghdr_Cmd (mkView (data msg2) gpos) in
  let accepted :=
    reply = cmd ∨
    (family = DATAPATH ∧ reply = OVS_DP_CMD_NEW) ∨
    (family = VPORT ∧ reply = OVS_VPORT_CMD_NEW) ∨
    (family = FLOW ∧ reply = OVS_FLOW_CMD_NEW) in
  (accepted →
   checkNlMsgHeaders dpif msg family cmd =
     Some ((Some (mkView (data msg2) gpos), Some (ovsHeaderAt (data msg3) opos), None),
           msg3)) ∧
  (¬ accepted →
   ∃ e m, checkNlMsgHeaders dpif msg family cmd = Some ((None, None, Some e), m)).
Proof.
  intros Hdp Hvp Hfl Hfam Hlk Hnl Hg Ho reply accepted.
  assert (Htake : takeOvsHeader msg2 = ((Some (ovsHeaderAt (data msg3) opos), None), msg3)).
  { unfold takeOvsHeader. by rewrite Ho. }
  unfold checkNlMsgHeaders. rewrite decide_True by done. rewrite Hlk.
  cbn [mbind option_bind]. rewrite Hnl.
  unfold accepted, DATAPATH, VPORT, FLOW in *.
  destruct (decide (family = 0)) as [->|H0];
    [|destruct (decide (family = 1)) as [->|H1];
      [|destruct (decide (family = 2)) as [->|H2]]].
  - destruct (CheckGenlMsghdr_run cmd OVS_DP_CMD_NEW msg1 msg2 gpos Hg) as [Hy Hn].
    fold reply in Hy, Hn. split.
    + intros H. rewrite Hy by (clear -H Hdp; intuition lia). by rewrite Htake.
    + intros H. destruct Hn as [e ->]; [clear -H; intuition lia | eauto].
  - destruct (CheckGenlMsghdr_run cmd OVS_VPORT_CMD_NEW msg1 msg2 gpos Hg) as [Hy Hn].
    fold reply in Hy, Hn. split.
    + intros H. rewrite Hy by (clear -H Hvp; intuition lia). by rewrite Htake.
    + intros H. destruct Hn as [e ->]; [clear -H; intuition lia | eauto].
  - destruct (CheckGenlMsghdr_run cmd OVS_FLOW_CMD_NEW msg1 msg2 gpos Hg) as [Hy Hn].
    fold reply in Hy, Hn. split.
    + intros H. rewrite Hy by (clear -H Hfl; intuition lia). by rewrite Htake.
    + intros H. destruct Hn as [e ->]; [clear -H; intuition lia | eauto].
  - destruct (CheckGenlMsghdr_run cmd (-1) msg1 msg2 gpos Hg) as [Hy Hn].
    fold reply in Hy, Hn. split.
    + intros H. rewrite Hy by (clear -H H0 H1 H2; intuition lia). by rewrite Htake.
    + intros H. destruct Hn as [e ->]; [clear -H; intuition lia | eauto].
Qed.

End Codec_properties.

(** * Runs on the simulated host *)

Section Simulated_runs.
#[local] Existing Instance Sim.decls.
#[local] Existing Instance Sim.transport.

(** C1.  On a host with the module loaded and no datapath "ovs-system",
    [FollowOvsFlows] opens the session on descriptor 3, fails at the
    resolution of the datapath, and returns the error with the session
    never closed: descriptor 3 stays open.  On a host where the datapath
    exists and [FollowFlows] fails, it returns that error, again with
    descriptor 3 open, and with a stop function whose invocation panics
    (the [stop] it wraps is nil) before it closes anything. *)
Theorem FollowOvsFlows_leaks_session_on_failure :
  FollowOvsFlows (Sim.boot (Sim.host [] false false)) =
    Done (None, None, Some (cannotFind "ovs-system"))
         (mkWorld (Sim.host_in_session [] false false) false
            (Sim.session_trace ++
             [EvLookupDatapath "ovs-system" (Some (NetlinkError Sim.ENODEV))])) ∧
  closes (Sim.session_trace ++
          [EvLookupDatapath "ovs-system" (Some (NetlinkError Sim.ENODEV))]) = [] ∧
  Sim.open_fds (Sim.host_in_session [] false false) = [3; 0; 1; 2] ∧
  FollowOvsFlows (Sim.boot (Sim.host Sim.with_system true false)) =
    Done (None, Some (stop_func None Sim.dpif), Some (NetlinkError Sim.ENODEV))
         (mkWorld (Sim.host_in_session Sim.with_system true false) false
            (Sim.session_trace ++
             [EvLookupDatapath "ovs-system" None;
              EvFollowFlows (Some (NetlinkError Sim.ENODEV))])) ∧
  closes (Sim.session_trace ++
          [EvLookupDatapath "ovs-system" None;
           EvFollowFlows (Some (NetlinkError Sim.ENODEV))]) = [] ∧
  (∀ v, stop_func None Sim.dpif v = Panic v).
Proof.
  split; [vm_compute; reflexivity|].
  split; [vm_compute; reflexivity|].
  split; [vm_compute; reflexivity|].
  split; [vm_compute; reflexivity|].
  split; [vm_compute; reflexivity|].
  intros v. reflexivity.
Qed.



Lemma stop_func_stops_then_closes_witness :
  FollowOvsFlows (Sim.boot (Sim.host Sim.with_system false false)) =
    Done (Some tt, Some (stop_func (Some Sim.stop) Sim.dpif), None)
         (Sim.followed false) ∧
  ∃ s stop t,
    trace (Sim.followed false) =
      trace (Sim.boot (Sim.host Sim.with_system false false))
        ++ EvOpenNetlinkSocket Go.NETLINK_GENERIC (inl s) :: t ∧
    (∃ h k, FollowFlows h k = ((Some tt, stop, None), kern (Sim.followed false))) ∧
    ∀ v, stop_func (Some Sim.stop) Sim.dpif v = stop_then_close s stop v.
Proof.
  split; [vm_compute; reflexivity|].
  apply (@stop_func_stops_then_closes Sim.decls Sim.state Sim.transport
           (Sim.boot (Sim.host Sim.with_system false false)) (Sim.followed false)
           (Some tt) (stop_func (Some Sim.stop) Sim.dpif) None).
  vm_compute; reflexivity.
Defined.


Lemma lookupDatapath_name_found_witness :
  LookupDatapath Sim.dpif "ovs-system" (Sim.host Sim.with_system false false) =
    ((7, None), Sim.host Sim.with_system false false) ∧
  lookupDatapath Sim.dpif "ovs-system"
      (Sim.boot (Sim.host Sim.with_system false false)) =
    Done (Some 7, "ovs-system"%string, None)
         (mkWorld (Sim.host Sim.with_system false false) false
                  ([] ++ [EvLookupDatapath "ovs-system" None])).
Proof.
  split; [reflexivity|].
  apply (@lookupDatapath_name_found Sim.decls Sim.state Sim.transport
           Sim.dpif "ovs-system"
           (Sim.boot (Sim.host Sim.with_system false false))).
  reflexivity.
Defined.

(** The example of the design document (section 8): no datapath is named
    "42", the datapath "br0" has the numeric id 42; the resolution of
    "42" gives "br0", and the resolution of "br0" gives "br0". *)
Example lookupDatapath_by_number :
  ∃ w', lookupDatapath Sim.dpif "42"
          (Sim.boot (Sim.host [("br0"%string, 42)] false false)) =
        Done (Some 42, "br0"%string, None) w' ∧
        trace w' = [EvLookupDatapath "42" (Some (NetlinkError Sim.ENODEV));
                    EvLookupDatapathByID 42 None].
Proof. eexists. split; vm_compute; reflexivity. Qed.

(** An identifier that is no name and no number of a datapath. *)
Example lookupDatapath_nonexistent :
  ∃ w', lookupDatapath Sim.dpif "nonexistent"
          (Sim.boot (Sim.host [("br0"%string, 42)] false false)) =
        Done (None, EmptyString, Some (cannotFind "nonexistent")) w' ∧
        trace w' = [EvLookupDatapath "nonexistent" (Some (NetlinkError Sim.ENODEV))].
Proof. eexists. split; vm_compute; reflexivity. Qed.

(** Family resolution on a host without the module: the probe runs once
    for the process; with autoload the retry finds the family, without
    it the family is reported unavailable. *)
Example lookupFamily_autoload :
  ∃ w', lookupFamily Sim.session_socket "ovs_flow" (Sim.boot (Sim.bare_host true)) =
        Done (Sim.family 2 "ovs_flow", None) w' ∧
        guard_triggers (trace w') = [true].
Proof. eexists. split; vm_compute; reflexivity. Qed.

Example lookupFamily_unavailable :
  ∃ w', lookupFamily Sim.session_socket "ovs_flow" (Sim.boot (Sim.bare_host false)) =
        Done (GenlFamily_zero, Some (familyUnavailableError "ovs_flow")) w' ∧
        guard_triggers (trace w') = [true] ∧
        ∃ w'', lookupFamily Sim.session_socket "ovs_vport" w' =
               Done (GenlFamily_zero, Some (familyUnavailableError "ovs_vport")) w'' ∧
               guard_triggers (trace w'') = [true; false].
Proof.
  eexists. split; [vm_compute; reflexivity|]. split; [vm_compute; reflexivity|].
  eexists. split; vm_compute; reflexivity.
Qed.

Lemma ovsHeader_roundtrip_witness :
  DatapathID_range 2147483647 ∧
  ∃ h p',
    takeOvsHeader
      (mkNlMsgParser
         (buf (putOvsHeader 2147483647 (mkNlMsgBuilder (le_split 3 0))) ++ [])
         (Z.of_nat (length (buf (mkNlMsgBuilder (le_split 3 0))))))
      = ((Some h, None), p') ∧
    datapathID (load_OvsHeader h) = 2147483647.
Proof.
  split; [unfold DatapathID_range; simpl; lia|].
  apply (@ovsHeader_roundtrip Sim.decls (mkNlMsgBuilder (le_split 3 0)) [] 2147483647).
  unfold DatapathID_range; simpl; lia.
Defined.

(** The round trip at the ends of the range: 0, the largest and the
    smallest signed value, and the largest unsigned value on a host whose
    [DatapathID] is unsigned and whose byte order is big. *)
Example ovsHeader_roundtrip_ends :
  (datapathID <$>
     (load_OvsHeader <$>
        (takeOvsHeader (mkNlMsgParser (buf (putOvsHeader 0 (mkNlMsgBuilder []))) 0)).1.1))
    = Some 0 ∧
  (datapathID <$>
     (load_OvsHeader <$>
        (takeOvsHeader (mkNlMsgParser
           (buf (putOvsHeader 2147483647 (mkNlMsgBuilder (le_split 5 0)))) 5)).1.1))
    = Some 2147483647 ∧
  (datapathID <$>
     (load_OvsHeader <$>
        (takeOvsHeader (mkNlMsgParser
           (buf (putOvsHeader (-2147483648) (mkNlMsgBuilder (le_split 5 0)))) 5)).1.1))
    = Some (-2147483648) ∧
  (@datapathID Sim.decls_unsigned_be <$>
     (@load_OvsHeader Sim.decls_unsigned_be <$>
        (takeOvsHeader (mkNlMsgParser
           (buf (@putOvsHeader Sim.decls_unsigned_be 4294967295
                   (mkNlMsgBuilder (le_split 6 0)))) 6)).1.1))
    = Some 4294967295.
Proof. repeat split; vm_compute; reflexivity. Qed.

Lemma checkNlMsgHeaders_accepts_command_witness :
  0 <= OVS_DP_CMD_NEW ∧ 0 <= OVS_VPORT_CMD_NEW ∧ 0 <= OVS_FLOW_CMD_NEW ∧
  0 <= DATAPATH ∧
  families Sim.dpif !! Z.to_nat DATAPATH = Some (Sim.family 0 "ovs_datapath") ∧
  ExpectNlMsghdr (id (Sim.family 0 "ovs_datapath"))
                 (mkNlMsgParser (Sim.reply 24 1 7) 0)
    = ((Some (mkView (Sim.reply 24 1 7) 0), None), mkNlMsgParser (Sim.reply 24 1 7) 16) ∧
  AlignAdvance Go.NLMSG_ALIGNTO SizeofGenlMsghdr (mkNlMsgParser (Sim.reply 24 1 7) 16)
    = ((16, None), mkNlMsgParser (Sim.reply 24 1 7) 20) ∧
  AlignAdvance Go.NLMSG_ALIGNTO SizeofOvsHeader (mkNlMsgParser (Sim.reply 24 1 7) 20)
    = ((20, None), mkNlMsgParser (Sim.reply 24 1 7) 24) ∧
  let reply := GenlMsghdr_Cmd (mkView (Sim.reply 24 1 7) 16) in
  let accepted :=
    reply = Sim.OVS_DP_CMD_GET ∨
    (DATAPATH = DATAPATH ∧ reply = OVS_DP_CMD_NEW) ∨
    (DATAPATH = VPORT ∧ reply = OVS_VPORT_CMD_NEW) ∨
    (DATAPATH = FLOW ∧ reply = OVS_FLOW_CMD_NEW) in
  (accepted →
   checkNlMsgHeaders Sim.dpif (mkNlMsgParser (Sim.reply 24 1 7) 0)
                     DATAPATH Sim.OVS_DP_CMD_GET =
     Some ((Some (mkView (Sim.reply 24 1 7) 16),
            Some (ovsHeaderAt (Sim.reply 24 1 7) 20), None),
           mkNlMsgParser (Sim.reply 24 1 7) 24)) ∧
  (¬ accepted →
   ∃ e m, checkNlMsgHeaders Sim.dpif (mkNlMsgParser (Sim.reply 24 1 7) 0)
                            DATAPATH Sim.OVS_DP_CMD_GET =
          Some ((None, None, Some e), m)).
Proof.
  split; [simpl; lia|]. split; [simpl; lia|]. split; [simpl; lia|].
  split; [unfold DATAPATH; lia|].
  split; [reflexivity|].
  split; [vm_compute; reflexivity|].
  split; [vm_compute; reflexivity|].
  split; [vm_compute; reflexivity|].
  apply (@checkNlMsgHeaders_accepts_command Sim.decls Sim.dpif
           (Sim.family 0 "ovs_datapath")
           (mkNlMsgParser (Sim.reply 24 1 7) 0)
           (mkNlMsgParser (Sim.reply 24 1 7) 16)
           (mkNlMsgParser (Sim.reply 24 1 7) 20)
           (mkNlMsgParser (Sim.reply 24 1 7) 24)
           (Some (mkView (Sim.reply 24 1 7) 0)) 16 20 DATAPATH Sim.OVS_DP_CMD_GET).
  - simpl; lia.
  - simpl; lia.
  - simpl; lia.
  - unfold DATAPATH; lia.
  - reflexivity.
  - vm_compute; reflexivity.
  - vm_compute; reflexivity.
  - vm_compute; reflexivity.
Defined.

(** Replies to a request with the command GET: the command NEW is
    accepted from the families DATAPATH, VPORT and FLOW and refused from
    PACKET; the command GET is accepted from PACKET; another command
    (DEL, 2) is refused from DATAPATH. *)
Example checkNlMsgHeaders_replies :
  let check family typ reply :=
    (λ r, r.1.2) <$>
      checkNlMsgHeaders Sim.dpif (mkNlMsgParser (Sim.reply typ reply 7) 0)
                        family Sim.OVS_DP_CMD_GET in
  check DATAPATH 24 1 = Some None ∧
  check VPORT 25 1 = Some None ∧
  check FLOW 26 1 = Some None ∧
  check PACKET 27 1 = Some (Some (errorString "generic netlink response has wrong cmd")) ∧
  check PACKET 27 3 = Some None ∧
  check DATAPATH 24 2 = Some (Some (errorString "generic netlink response has wrong cmd")) ∧
  check DATAPATH 27 3 = Some (Some (errorString "netlink response has wrong type")).
Proof. repeat split; vm_compute; reflexivity. Qed.

End Simulated_runs.


(** * Further properties of dpif.go *)

Section Probe.
Context `{D : Decls} {K : Type} `{T : Transport K}.

(** X1.  The autoload probe always returns, and never with a descriptor
    left open: either [syscall.Socket] fails and it does nothing more, or
    it names "openvswitch" in one ioctl on the descriptor it got and closes
    that same descriptor.  It makes no call on a netlink socket and leaves
    the guard as it found it. *)
Theorem loadOpenvswitchModule_closes_what_it_opens (w : World K) :
  ∃ w' t,
    loadOpenvswitchModule w = Done tt w' ∧
    trace w' = trace w ++ t ∧
    triedLoadOpenvswitchModule w' = triedLoadOpenvswitchModule w ∧
    sys_closed t = sys_opened t ∧
    family_queries t = [] ∧ closes t = [] ∧
    ((∃ d e, t = [EvSysSocket d (Some e)]) ∨
     (∃ d, t = [EvSysSocket d None; EvSysIoctl d "openvswitch"; EvSysClose d])).
Proof.
  destruct (loadOpenvswitchModule_run w) as (k' & t & E & Ht).
  eexists _, t. split; [exact E|]. cbn [trace triedLoadOpenvswitchModule].
  split; [done|]. split; [done|].
  destruct Ht as [(d & e & ->) | (d & ->)]; repeat split; eauto.
Qed.

(** X2.  An error ENOENT of the transport never leaves [lookupFamily]:
    whenever [lookupFamily] returns an error, the error is not
    [NetlinkError(ENOENT)], and the family returned with it is the zero
    [GenlFamily], whatever family the transport sent with its error. *)
Theorem lookupFamily_never_returns_ENOENT
    (sock : NetlinkSocket) (name : string) (w w' : World K)
    (f : GenlFamily) (e : error) :
  lookupFamily sock name w = Done (f, Some e) w' →
  e ≠ NetlinkError Go.ENOENT ∧ f = GenlFamily_zero.
Proof.
  intros E.
  destruct (lookupFamily_run sock name w) as (r & w1 & t & E1 & _ & Hrun & _).
  rewrite E in E1. inversion E1; subst r w1; clear E1.
  inversion Hrun; subst; done.
Qed.

Lemma probe_runs_app t1 t2 : probe_runs (t1 ++ t2) = (probe_runs t1 + probe_runs t2)%nat.
Proof. unfold probe_runs. by rewrite omap_app, length_app. Qed.

(** The law of the guard holds of the building blocks of the monad. *)
Lemma guard_law_ret {A} (a : A) : guard_law (mret a : M K A).
Proof. intros w. exists []. by rewrite app_nil_r, Nat.add_0_r. Qed.

Lemma guard_law_panic {A} : guard_law (panic : M K A).
Proof. intros w. exists []. by rewrite app_nil_r, Nat.add_0_r. Qed.

Lemma guard_law_bind {A B} (m : M K A) (f : A → M K B) :
  guard_law m → (∀ a, guard_law (f a)) → guard_law (m ≫= f).
Proof.
  intros Hm Hf w. destruct (Hm w) as (t1 & Ht1 & Hn1).
  unfold mbind, M_bind. destruct (m w) as [a w1|w1]; cbn [final] in *.
  - destruct (Hf a w1) as (t2 & Ht2 & Hn2). exists (t1 ++ t2).
    rewrite Ht2, Ht1, <- app_assoc, probe_runs_app. split; [done | lia].
  - by exists t1.
Qed.

Lemma guard_law_call {A} (f : K → A * K) (ev : A → event) :
  (∀ a d r, ev a ≠ EvSysSocket d r) → guard_law (call f ev).
Proof.
  intros Hev w. rewrite call_Done. cbn [final trace triedLoadOpenvswitchModule].
  eexists [_]. split; [done|]. unfold probe_runs. simpl.
  destruct (ev (f (kern w)).1) eqn:E; simpl; try lia.
  exfalso. by eapply Hev.
Qed.

Lemma guard_law_deref {A} (p : option A) : guard_law (deref p : M K A).
Proof. destruct p; [apply guard_law_ret | apply guard_law_panic]. Qed.

Lemma guard_law_index {A} (l : list A) (i : Z) : guard_law (index l i : M K A).
Proof.
  unfold index. destruct (decide (0 <= i)); [apply guard_law_deref | apply guard_law_panic].
Qed.

Lemma guard_law_Once_Do : guard_law (Once_Do loadOpenvswitchModule).
Proof.
  intros w. destruct (Once_Do_run w) as (k' & tg & -> & Hrun & Hyes & Hno).
  exists tg. cbn [final trace triedLoadOpenvswitchModule]. split; [done|].
  destruct (triedLoadOpenvswitchModule w).
  - by destruct (Hyes eq_refl) as [-> _].
  - destruct (Hno eq_refl) as [tg' ->]. by inversion Hrun.
Qed.

Lemma guard_law_lookupFamily (sock : NetlinkSocket) (name : string) :
  guard_law (lookupFamily sock name).
Proof.
  unfold lookupFamily. apply guard_law_bind; [by apply guard_law_call|].
  intros [f [e|]]; [|apply guard_law_ret].
  destruct (decide (e = NetlinkError Go.ENOENT)); [|apply guard_law_ret].
  apply guard_law_bind; [apply guard_law_Once_Do|]. intros _.
  apply guard_law_bind; [by apply guard_law_call|].
  intros [f2 [e2|]]; [|apply guard_law_ret].
  destruct (decide (e2 = NetlinkError Go.ENOENT)); apply guard_law_ret.
Qed.

Lemma guard_law_Dpif_Close (d : Dpif) : guard_law (Dpif_Close d).
Proof. by apply guard_law_call. Qed.

Lemma guard_law_newDpifType_loop (idx : list Z) :
  ∀ d, guard_law (newDpifType_loop idx d).
Proof.
  induction idx as [|i idx IH]; intros d; cbn [newDpifType_loop].
  - apply guard_law_ret.
  - apply guard_law_bind; [apply guard_law_index|]. intros name.
    apply guard_law_bind; [apply guard_law_lookupFamily|]. intros [f err].
    apply guard_law_bind; [apply guard_law_index|]. intros _.
    destruct err; [|apply IH].
    apply guard_law_bind; [apply guard_law_Dpif_Close|]. intros _.
    apply guard_law_ret.
Qed.

Lemma guard_law_newDpifType (netlinkType : Z) : guard_law (newDpifType netlinkType).
Proof.
  unfold newDpifType. apply guard_law_bind; [by apply guard_law_call|].
  intros [s|e]; [apply guard_law_newDpifType_loop | apply guard_law_ret].
Qed.

Lemma guard_law_getMCGroup (d : Dpif) (family : Z) (name : string) :
  guard_law (getMCGroup (K:=K) d family name).
Proof.
  unfold getMCGroup. apply guard_law_bind; [apply guard_law_index|]. intros fam.
  destruct (mcGroups fam !! name); [apply guard_law_ret|].
  apply guard_law_bind; [apply guard_law_index|]. intros. apply guard_law_ret.
Qed.

Lemma guard_law_NewDpifOvs (follow : bool) : guard_law (NewDpifOvs follow).
Proof.
  unfold NewDpifOvs. apply guard_law_bind; [apply guard_law_newDpifType|].
  intros [dpif [e|]]; [apply guard_law_ret|].
  apply guard_law_bind; [apply guard_law_deref|]. intros d.
  apply guard_law_bind; [apply guard_law_getMCGroup|]. intros [g [e|]].
  - apply guard_law_bind; [apply guard_law_Dpif_Close|]. intros. apply guard_law_ret.
  - destruct follow; [|apply guard_law_ret].
    apply guard_law_bind; [by apply guard_law_call|]. intros [e|]; [|apply guard_law_ret].
    apply guard_law_bind; [apply guard_law_Dpif_Close|]. intros. apply guard_law_ret.
Qed.

Lemma guard_law_lookupDatapath (d : Dpif) (name : string) :
  guard_law (lookupDatapath d name).
Proof.
  unfold lookupDatapath. apply guard_law_bind; [by apply guard_law_call|].
  intros [dph [e|]]; [|apply guard_law_ret].
  destruct (negb (IsNoSuchDatapathError e)); [apply guard_law_ret|].
  destruct (Go.ParseUint_10_32 name) as [ifindex [pe|]]; [apply guard_law_ret|].
  apply guard_law_bind; [by apply guard_law_call|].
  intros [dp [e'|]]; [|apply guard_law_ret].
  destruct (negb (IsNoSuchDatapathError e')); apply guard_law_ret.
Qed.

Lemma guard_law_FollowOvsFlows : guard_law FollowOvsFlows.
Proof.
  unfold FollowOvsFlows. apply guard_law_bind; [apply guard_law_NewDpifOvs|].
  intros [dpif [e|]]; [apply guard_law_ret|].
  apply guard_law_bind; [apply guard_law_deref|]. intros d.
  apply guard_law_bind; [apply guard_law_lookupDatapath|]. intros [[dp nm] [e|]].
  - apply guard_law_ret.
  - apply guard_law_bind; [apply guard_law_deref|]. intros h.
    apply guard_law_bind; [by apply guard_law_call|]. intros [[res stop] err].
    apply guard_law_ret.
Qed.

(** What the law gives for one run. *)
Lemma guard_law_once {A} (m : M K A) (w : World K) :
  guard_law m →
  ∃ t, trace (final (m w)) = trace w ++ t ∧
       (probe_runs t <= 1)%nat ∧
       (triedLoadOpenvswitchModule w = true → probe_runs t = 0%nat) ∧
       (probe_runs t = 1%nat → triedLoadOpenvswitchModule (final (m w)) = true) ∧
       (triedLoadOpenvswitchModule w = true →
        triedLoadOpenvswitchModule (final (m w)) = true).
Proof.
  intros H. destruct (H w) as (t & Ht & Hn). exists t. split; [done|].
  destruct (triedLoadOpenvswitchModule w), (triedLoadOpenvswitchModule (final (m w)));
    simpl in Hn; repeat split; intros; try done; lia.
Qed.

(** X3.  In a resolution of a family the autoload probe runs at most
    once, and not at all when the guard was triggered before in the
    process; the guard, once in the state "attempted", stays there. *)
Theorem lookupFamily_probes_at_most_once
    (sock : NetlinkSocket) (name : string) (w : World K) :
  ∃ t, trace (final (lookupFamily sock name w)) = trace w ++ t ∧
       (probe_runs t <= 1)%nat ∧
       (triedLoadOpenvswitchModule w = true → probe_runs t = 0%nat) ∧
       (probe_runs t = 1%nat →
        triedLoadOpenvswitchModule (final (lookupFamily sock name w)) = true) ∧
       (triedLoadOpenvswitchModule w = true →
        triedLoadOpenvswitchModule (final (lookupFamily sock name w)) = true).
Proof. apply guard_law_once, guard_law_lookupFamily. Qed.

(** X4.  In the construction of a session, with its resolutions of four
    families, the autoload probe runs at most once in all, and not at all
    when the guard was triggered before in the process. *)
Theorem newDpifType_probes_at_most_once (netlinkType : Z) (w : World K) :
  ∃ t, trace (final (newDpifType netlinkType w)) = trace w ++ t ∧
       (probe_runs t <= 1)%nat ∧
       (triedLoadOpenvswitchModule w = true → probe_runs t = 0%nat) ∧
       (probe_runs t = 1%nat →
        triedLoadOpenvswitchModule (final (newDpifType netlinkType w)) = true) ∧
       (triedLoadOpenvswitchModule w = true →
        triedLoadOpenvswitchModule (final (newDpifType netlinkType w)) = true).
Proof. apply guard_law_once, guard_law_newDpifType. Qed.

(** X5.  Two sessions constructed one after the other in a process run
    the autoload probe at most once between them. *)
Theorem two_sessions_probe_at_most_once (t1 t2 : Z) (w : World K) :
  ∃ t, trace (final ((newDpifType t1;; newDpifType t2) w)) = trace w ++ t ∧
       (probe_runs t <= 1)%nat.
Proof.
  destruct (guard_law_once (newDpifType t1;; newDpifType t2) w) as (t & Ht & Hle & _).
  { apply guard_law_bind; [apply guard_law_newDpifType|].
    intros _. apply guard_law_newDpifType. }
  eauto.
Qed.

End Probe.

Section Sessions.
Context `{D : Decls} {K : Type} `{T : Transport K}.

(** What [getMCGroup] answers on a handle with its four families. *)
Lemma getMCGroup_in_range (d : Dpif) (family : Z) (name : string) (w : World K)
    (fam : GenlFamily) (fname : string) :
  0 <= family →
  families d !! Z.to_nat family = Some fam →
  familyNames !! Z.to_nat family = Some fname →
  getMCGroup d family name w =
    Done (match mcGroups fam !! name with
          | Some g => (g, None)
          | None => (0, Some (errorString
                       ("No genl MC group " ++ name ++ " in family " ++ fname)%string))
          end) w.
Proof.
  intros H0 Hf Hn. unfold getMCGroup.
  rewrite (bind_Done _ _ w fam w) by by apply index_lookup.
  destruct (mcGroups fam !! name); [done|].
  by rewrite (bind_Done _ _ w fname w) by by apply index_lookup.
Qed.

(** X6.  On a handle with its four families, [getMCGroup] changes nothing
    and calls nothing.  For a family index from 0 to 3 it answers the id
    that the family records for the group name, or, when the family
    records none, the id 0 with an error that names the group and the
    family.  For any other index it panics. *)
Theorem getMCGroup_lookup (d : Dpif) (family : Z) (name : string) (w : World K) :
  length (families d) = Z.to_nat FAMILY_COUNT →
  (0 <= family < FAMILY_COUNT →
   ∃ fam fname,
     families d !! Z.to_nat family = Some fam ∧
     familyNames !! Z.to_nat family = Some fname ∧
     getMCGroup d family name w =
       Done (match mcGroups fam !! name with
             | Some g => (g, None)
             | None => (0, Some (errorString
                          ("No genl MC group " ++ name ++ " in family " ++ fname)%string))
             end) w) ∧
  (¬ 0 <= family < FAMILY_COUNT → getMCGroup d family name w = Panic w).
Proof.
  intros Hl. unfold FAMILY_COUNT in *. split.
  - intros Hr.
    destruct (lookup_lt_is_Some_2 (families d) (Z.to_nat family)) as [fam Hf]; [lia|].
    destruct (lookup_lt_is_Some_2 familyNames (Z.to_nat family)) as [fname Hn];
      [simpl; lia|].
    exists fam, fname. split; [done|]. split; [done|].
    by apply getMCGroup_in_range; [lia|..].
  - intros Hr. unfold getMCGroup, index.
    destruct (decide (0 <= family)); [|done].
    rewrite (lookup_ge_None_2 (families d) (Z.to_nat family)) by lia. done.
Qed.

Lemma subscriptions_app t1 t2 :
  subscriptions (t1 ++ t2) = subscriptions t1 ++ subscriptions t2.
Proof. apply omap_app. Qed.

Lemma resolve_run_no_subscription sock name t r :
  resolve_run sock name t r → subscriptions t = [].
Proof.
  destruct 1 as [| |f1 tg f2 Hg|f1 tg f2 Hg|f1 tg f2 e He Hg]; try done;
    change (subscriptions (?e :: ?l)) with (subscriptions l);
    rewrite subscriptions_app; by destruct Hg.
Qed.

Lemma resolved_no_subscription sock names fs t :
  resolved sock names fs t → subscriptions t = [].
Proof.
  induction 1 as [|name names f fs t1 t2 H1 _ IH]; [done|].
  by rewrite subscriptions_app, (resolve_run_no_subscription _ _ _ _ H1), IH.
Qed.

(** Every run of [NewDpifOvs], by the step at which it ends. *)
Lemma NewDpifOvs_cases (follow : bool) (w : World K) :
  ∃ r w' t,
    NewDpifOvs follow w = Done r w' ∧
    trace w' = trace w ++ t ∧
    ((∃ e, t = [EvOpenNetlinkSocket Go.NETLINK_GENERIC (inr e)] ∧
           r = (None, Some e)) ∨
     (∃ s t1 e cerr,
        t = EvOpenNetlinkSocket Go.NETLINK_GENERIC (inl s) :: t1 ++ [EvSockClose s cerr] ∧
        closes t1 = [] ∧ subscriptions t1 = [] ∧
        e ≠ NetlinkError Go.ENOENT ∧
        r = (None, Some e)) ∨
     (∃ s fs t1 fam cerr,
        resolved s familyNames fs t1 ∧
        fs !! Z.to_nat FLOW = Some fam ∧ mcGroups fam !! "ovs_flow"%string = None ∧
        t = EvOpenNetlinkSocket Go.NETLINK_GENERIC (inl s) :: t1 ++ [EvSockClose s cerr] ∧
        r = (None, Some (errorString "No genl MC group ovs_flow in family ovs_flow"))) ∨
     (∃ s fs t1 fam g e cerr,
        follow = true ∧
        resolved s familyNames fs t1 ∧
        fs !! Z.to_nat FLOW = Some fam ∧ mcGroups fam !! "ovs_flow"%string = Some g ∧
        t = EvOpenNetlinkSocket Go.NETLINK_GENERIC (inl s)
              :: t1 ++ [EvSetsockoptInt (fd s) SOL_NETLINK Go.NETLINK_ADD_MEMBERSHIP g (Some e);
                        EvSockClose s cerr] ∧
        r = (None, Some e)) ∨
     (∃ s fs t1 fam g,
        resolved s familyNames fs t1 ∧
        fs !! Z.to_nat FLOW = Some fam ∧ mcGroups fam !! "ovs_flow"%string = Some g ∧
        t = EvOpenNetlinkSocket Go.NETLINK_GENERIC (inl s)
              :: t1 ++ (if follow
                        then [EvSetsockoptInt (fd s) SOL_NETLINK
                                Go.NETLINK_ADD_MEMBERSHIP g None]
                        else []) ∧
        r = (Some (mkDpif s fs), None))).
Proof.
  unfold NewDpifOvs.
  destruct (newDpifType_run Go.NETLINK_GENERIC w) as (r & w1 & t & E & Ht & Hr).
  rewrite (bind_Done _ _ _ _ _ E).
  destruct Hr as [(e & -> & ->) | [(s & fs & t1 & -> & Hres & Hcl & Hlen & ->) |
                  (s & ok & n & rest & fs & t1 & t2 & f & e & cerr
                   & Hn & Hres & Hfail & -> & Hcl & ->)]].
  - eexists _, _, _. split; [reflexivity|]. split; [exact Ht|]. left. eauto.
  - cbn [deref]. change (mret (mkDpif s fs) ≫= ?k) with (λ v : World K, k (mkDpif s fs) v).
    cbn beta.
    destruct (lookup_lt_is_Some_2 fs (Z.to_nat FLOW)) as [fam Hfam];
      [rewrite Hlen; unfold FLOW, FAMILY_COUNT; lia|].
    rewrite (bind_Done _ _ _ _ _
               (getMCGroup_in_range (mkDpif s fs) FLOW "ovs_flow" w1 fam "ovs_flow"
                  ltac:(done) Hfam eq_refl)).
    destruct (mcGroups fam !! "ovs_flow"%string) as [g|] eqn:Eg.
    + destruct follow.
      * rewrite (bind_Done _ _ _ _ _ (call_Done _ _ _)). cbn [sock fd].
        destruct (SetsockoptInt (fd s) SOL_NETLINK Go.NETLINK_ADD_MEMBERSHIP g (kern w1))
          as [[e|] k2]; cbn [fst snd].
        -- unfold Dpif_Close. rewrite (bind_Done _ _ _ _ _ (call_Done _ _ _)). cbn [sock].
           eexists _, _,
             (EvOpenNetlinkSocket Go.NETLINK_GENERIC (inl s)
                :: t1 ++ [EvSetsockoptInt (fd s) SOL_NETLINK
                            Go.NETLINK_ADD_MEMBERSHIP g (Some e);
                          EvSockClose s _]).
           split; [reflexivity|]. cbn [trace].
           split; [by rewrite Ht, <- !app_assoc|].
           do 3 right; left. exists s, fs, t1, fam, g, e. eexists. done.
        -- eexists _, _,
             (EvOpenNetlinkSocket Go.NETLINK_GENERIC (inl s)
                :: t1 ++ [EvSetsockoptInt (fd s) SOL_NETLINK
                            Go.NETLINK_ADD_MEMBERSHIP g None]).
           split; [reflexivity|]. cbn [trace].
           split; [by rewrite Ht, <- !app_assoc|].
           do 4 right. exists s, fs, t1, fam, g. done.
      * eexists _, _, (EvOpenNetlinkSocket Go.NETLINK_GENERIC (inl s) :: t1 ++ []).
        split; [reflexivity|]. split; [by rewrite app_nil_r|].
        do 4 right. exists s, fs, t1, fam, g. done.
    + unfold Dpif_Close. rewrite (bind_Done _ _ _ _ _ (call_Done _ _ _)). cbn [sock].
      eexists _, _,
        (EvOpenNetlinkSocket Go.NETLINK_GENERIC (inl s) :: t1 ++ [EvSockClose s _]).
      split; [reflexivity|]. cbn [trace].
      split; [by rewrite Ht, <- !app_assoc|].
      do 2 right; left. exists s, fs, t1, fam. eexists. done.
  - eexists _, _, _. split; [reflexivity|]. split; [exact Ht|]. right; left.
    exists s, (t1 ++ t2), e, cerr. split; [by rewrite <- app_assoc|].
    split; [by rewrite closes_app, (resolved_no_close _ _ _ _ Hres),
              (resolve_run_no_close _ _ _ _ Hfail)|].
    split; [by rewrite subscriptions_app, (resolved_no_subscription _ _ _ _ Hres),
              (resolve_run_no_subscription _ _ _ _ Hfail)|].
    split; [|done]. inversion Hfail; subst; done.
Qed.

(** What [NewDpifOvs] returns and the state it leaves, from the answers
    of the transport. *)
Lemma NewDpifOvs_end (follow : bool) (w w' : World K)
    (r : option Dpif * option error) :
  NewDpifOvs follow w = Done r w' → subscription_end follow w r w'.
Proof.
  unfold NewDpifOvs. intros E.
  destruct (newDpifType_run Go.NETLINK_GENERIC w) as (r0 & w1 & t & E0 & Ht & Hr).
  rewrite (bind_Done _ _ _ _ _ E0) in E.
  exists r0, w1. split; [exact E0|].
  split; [by apply newDpifType_end|].
  destruct Hr as [(e & -> & ->) | [(s & fs & t1 & -> & Hres & Hcl & Hlen & ->) |
                  (s & ok & n & rest & fs & t1 & t2 & f & e & cerr
                   & Hn & Hres & Hfail & -> & Hcl & ->)]].
  - by inversion E.
  - cbn [deref] in E.
    change (mret (mkDpif s fs) ≫= ?k) with (λ v : World K, k (mkDpif s fs) v) in E.
    cbn beta in E.
    destruct (lookup_lt_is_Some_2 fs (Z.to_nat FLOW)) as [fam Hfam];
      [rewrite Hlen; unfold FLOW, FAMILY_COUNT; lia|].
    rewrite (bind_Done _ _ _ _ _
               (getMCGroup_in_range (mkDpif s fs) FLOW "ovs_flow" w1 fam "ovs_flow"
                  ltac:(done) Hfam eq_refl)) in E.
    exists fam. split; [exact Hfam|]. cbn [sock fd].
    destruct (mcGroups fam !! "ovs_flow"%string) as [g|] eqn:Eg.
    + destruct follow; [|by inversion E].
      rewrite (bind_Done _ _ _ _ _ (call_Done _ _ _)) in E. cbn [sock fd] in E.
      cbn zeta.
      destruct (SetsockoptInt (fd s) SOL_NETLINK Go.NETLINK_ADD_MEMBERSHIP g (kern w1))
        as [[e|] k2]; cbn [fst snd] in *; [|by inversion E].
      unfold Dpif_Close in E. rewrite (bind_Done _ _ _ _ _ (call_Done _ _ _)) in E.
      by inversion E.
    + unfold Dpif_Close in E. rewrite (bind_Done _ _ _ _ _ (call_Done _ _ _)) in E.
      by inversion E.
  - by inversion E.
Qed.

(** X7.  [NewDpifOvs] always returns.  It opens one socket of the kind
    NETLINK_GENERIC and resolves the families; then it reads the id of the
    group "ovs_flow" of the family FLOW, and with [follow] joins that
    group on the socket, after all four families are resolved; without
    [follow] it asks for no membership.  When a family is not resolved,
    when the group is not recorded (the error then names the group and the
    family), or when the membership is refused, it closes the socket as
    its last call and returns the error with a nil handle; the handle it
    returns with no error carries the socket, not closed, and the four
    families.  What it returns, and the state in which it returns, are
    those that the answers of the transport determine
    ([subscription_end]): the session is constructed in the state in
    which [NewDpifOvs] is entered; the membership is asked of the
    transport in the state the construction left, for the group that
    the family FLOW of the session records; the socket is closed in the
    state the step that failed left. *)
Theorem NewDpifOvs_subscribes_after_resolution (follow : bool) (w : World K) :
  ∃ r w' t,
    NewDpifOvs follow w = Done r w' ∧
    trace w' = trace w ++ t ∧
    ((∃ e, t = [EvOpenNetlinkSocket Go.NETLINK_GENERIC (inr e)] ∧
           r = (None, Some e)) ∨
     (∃ s t1 e cerr,
        t = EvOpenNetlinkSocket Go.NETLINK_GENERIC (inl s) :: t1 ++ [EvSockClose s cerr] ∧
        closes t1 = [] ∧ subscriptions t1 = [] ∧
        e ≠ NetlinkError Go.ENOENT ∧
        r = (None, Some e)) ∨
     (∃ s fs t1 fam cerr,
        resolved s familyNames fs t1 ∧
        fs !! Z.to_nat FLOW = Some fam ∧ mcGroups fam !! "ovs_flow"%string = None ∧
        t = EvOpenNetlinkSocket Go.NETLINK_GENERIC (inl s) :: t1 ++ [EvSockClose s cerr] ∧
        r = (None, Some (errorString "No genl MC group ovs_flow in family ovs_flow"))) ∨
     (∃ s fs t1 fam g e cerr,
        follow = true ∧
        resolved s familyNames fs t1 ∧
        fs !! Z.to_nat FLOW = Some fam ∧ mcGroups fam !! "ovs_flow"%string = Some g ∧
        t = EvOpenNetlinkSocket Go.NETLINK_GENERIC (inl s)
              :: t1 ++ [EvSetsockoptInt (fd s) SOL_NETLINK Go.NETLINK_ADD_MEMBERSHIP g (Some e);
                        EvSockClose s cerr] ∧
        r = (None, Some e)) ∨
     (∃ s fs t1 fam g,
        resolved s familyNames fs t1 ∧
        fs !! Z.to_nat FLOW = Some fam ∧ mcGroups fam !! "ovs_flow"%string = Some g ∧
        t = EvOpenNetlinkSocket Go.NETLINK_GENERIC (inl s)
              :: t1 ++ (if follow
                        then [EvSetsockoptInt (fd s) SOL_NETLINK
                                Go.NETLINK_ADD_MEMBERSHIP g None]
                        else []) ∧
        r = (Some (mkDpif s fs), None))) ∧
    subscription_end follow w r w'.
Proof.
  destruct (NewDpifOvs_cases follow w) as (r & w' & t & E & Ht & Hr).
  exists r, w', t. repeat (split; [done|]).
  by apply NewDpifOvs_end.
Qed.

(** X14.  The group ids survive a reopening: on the handle that [Reopen]
    returns, [getMCGroup] answers for every family index and every group
    name what it answers on the original handle, with no call to the
    transport. *)
Theorem Reopen_keeps_groups (d d' : Dpif) (w w' : World K) :
  Reopen d w = Done (Some d', None) w' →
  ∀ (family : Z) (name : string) (v : World K),
    getMCGroup d' family name v = getMCGroup d family name v.
Proof.
  unfold Reopen. rewrite (bind_Done _ _ _ _ _ (call_Done _ _ _)).
  destruct (OpenNetlinkSocket (sockType (sock d)) (kern w)) as [[s|e] k1];
    cbn [fst snd]; [|done].
  intros [= <- _] family name v. reflexivity.
Qed.

End Sessions.

Section Without_support.
Context `{D : Decls} {K : Type} `{T : Transport K}.

(** The resolution of a family that the transport never knows. *)
Lemma lookupFamily_unknown (s : NetlinkSocket) (name : string) (w : World K) :
  (∀ k, (LookupGenlFamily s name k).1.2 = Some (NetlinkError Go.ENOENT)) →
  ∃ w' f1 f2 tg,
    lookupFamily s name w = Done (GenlFamily_zero, Some (familyUnavailableError name)) w' ∧
    guard_run tg ∧
    trace w' = trace w ++
      EvLookupGenlFamily s name f1 (Some (NetlinkError Go.ENOENT))
        :: tg ++ [EvLookupGenlFamily s name f2 (Some (NetlinkError Go.ENOENT))] ∧
    (let q1 := LookupGenlFamily s name (kern w) in
     let w2 := guard_end (mkWorld q1.2 (triedLoadOpenvswitchModule w)
                 (trace w ++ [EvLookupGenlFamily s name q1.1.1 q1.1.2])) in
     let q2 := LookupGenlFamily s name (kern w2) in
     w' = mkWorld q2.2 true
            (trace w2 ++ [EvLookupGenlFamily s name q2.1.1 q2.1.2])).
Proof.
  intros Hno.
  assert (∃ w' f1 f2 tg,
    lookupFamily s name w = Done (GenlFamily_zero, Some (familyUnavailableError name)) w' ∧
    guard_run tg ∧
    trace w' = trace w ++
      EvLookupGenlFamily s name f1 (Some (NetlinkError Go.ENOENT))
        :: tg ++ [EvLookupGenlFamily s name f2 (Some (NetlinkError Go.ENOENT))])
    as (w' & f1 & f2 & tg & E & Hg & Ht).
  { unfold lookupFamily.
    rewrite (bind_Done _ _ _ _ _ (call_Done _ _ _)).
    pose proof (Hno (kern w)) as H1.
    destruct (LookupGenlFamily s name (kern w)) as [[f1 e1] k1].
    cbn [fst snd] in *. subst e1.
    rewrite decide_True by done.
    match goal with |- context [mbind _ (Once_Do _) ?b] =>
      destruct (Once_Do_run b) as (k2 & tg & Hg & Hrun & _) end.
    rewrite (bind_Done _ _ _ _ _ Hg).
    rewrite (bind_Done _ _ _ _ _ (call_Done _ _ _)).
    cbn [kern trace triedLoadOpenvswitchModule].
    pose proof (Hno k2) as H2.
    destruct (LookupGenlFamily s name k2) as [[f2 e2] k3]. cbn [fst snd] in *. subst e2.
    rewrite decide_True by done.
    eexists _, f1, f2, tg.
    split; [reflexivity|]. split; [exact Hrun|]. cbn [trace].
    by rewrite <- !app_assoc. }
  exists w', f1, f2, tg. split; [exact E|]. split; [exact Hg|]. split; [exact Ht|].
  pose proof (lookupFamily_end s name w w' _ E) as He.
  cbn zeta. pose proof (Hno (kern w)) as H1.
  destruct (LookupGenlFamily s name (kern w)) as [[g1 e1] k1].
  cbn [fst snd] in *. subst e1.
  rewrite decide_True in He by done. cbn zeta in He.
  match type of He with context [LookupGenlFamily s name (kern ?v)] =>
    pose proof (Hno (kern v)) as H2;
    destruct (LookupGenlFamily s name (kern v)) as [[g2 e2] k3] end.
  cbn [fst snd] in *. subst e2. by destruct He as [-> _].
Qed.

(** X8.  On a kernel where the family "ovs_datapath" stays unknown, the
    construction of a session on a socket that opens makes these calls
    and no other, in this order: the open; the query for
    "ovs_datapath", answered ENOENT; one trigger of the guard; the same
    query again, answered ENOENT; the close of the socket.  So the
    trigger lies between the two queries, and no other family is
    resolved.  Each call is made in the state the call before it left,
    and the construction returns in the state the close leaves, with a
    nil handle and the error [familyUnavailableError] of
    "ovs_datapath", which [IsKernelLacksODPError] recognises. *)
Theorem newDpifType_without_support
    (netlinkType : Z) (w : World K) (s : NetlinkSocket) (k1 : K) :
  (∀ k, (LookupGenlFamily s "ovs_datapath" k).1.2 = Some (NetlinkError Go.ENOENT)) →
  OpenNetlinkSocket netlinkType (kern w) = (inl s, k1) →
  ∃ w' t,
    newDpifType netlinkType w =
      Done (None, Some (familyUnavailableError "ovs_datapath")) w' ∧
    trace w' = trace w ++ t ∧
    (∃ f1 f2 tg cerr,
       guard_run tg ∧
       t = EvOpenNetlinkSocket netlinkType (inl s)
             :: EvLookupGenlFamily s "ovs_datapath" f1 (Some (NetlinkError Go.ENOENT))
             :: tg ++ [EvLookupGenlFamily s "ovs_datapath" f2
                         (Some (NetlinkError Go.ENOENT));
                       EvSockClose s cerr]) ∧
    (let q1 := LookupGenlFamily s "ovs_datapath" k1 in
     let w2 := guard_end (mkWorld q1.2 (triedLoadOpenvswitchModule w)
                 (trace w ++ [EvOpenNetlinkSocket netlinkType (inl s);
                              EvLookupGenlFamily s "ovs_datapath" q1.1.1 q1.1.2])) in
     let q2 := LookupGenlFamily s "ovs_datapath" (kern w2) in
     w' = close_end s
            (mkWorld q2.2 true
               (trace w2 ++ [EvLookupGenlFamily s "ovs_datapath" q2.1.1 q2.1.2]))) ∧
    family_queries t = [(s, "ovs_datapath"%string, Some (NetlinkError Go.ENOENT));
                        (s, "ovs_datapath"%string, Some (NetlinkError Go.ENOENT))] ∧
    length (guard_triggers t) = 1%nat ∧
    closes t = [s] ∧
    triedLoadOpenvswitchModule w' = true ∧
    IsKernelLacksODPError (familyUnavailableError "ovs_datapath") = true.
Proof.
  intros Hno Hopen. unfold newDpifType.
  rewrite (bind_Done _ _ _ _ _ (call_Done _ _ _)). rewrite Hopen. cbn [fst snd].
  change (seqZ 0 FAMILY_COUNT) with [0; 1; 2; 3].
  cbn [newDpifType_loop sock families].
  rewrite (bind_Done _ _ _ "ovs_datapath"%string _) by by apply index_lookup.
  match goal with |- context [mbind _ (lookupFamily _ _) ?b] =>
    destruct (lookupFamily_unknown s "ovs_datapath" b Hno)
      as (w1 & f1 & f2 & tg & E & Hg & Ht & Hw) end.
  rewrite (bind_Done _ _ _ _ _ E).
  rewrite (bind_Done _ _ _ GenlFamily_zero _) by by apply index_lookup.
  unfold Dpif_Close. rewrite (bind_Done _ _ _ _ _ (call_Done _ _ _)). cbn [sock].
  cbn [kern trace triedLoadOpenvswitchModule] in Ht, Hw.
  exists (close_end s w1),
    (EvOpenNetlinkSocket netlinkType (inl s)
       :: EvLookupGenlFamily s "ovs_datapath" f1 (Some (NetlinkError Go.ENOENT))
       :: tg ++ [EvLookupGenlFamily s "ovs_datapath" f2 (Some (NetlinkError Go.ENOENT));
                 EvSockClose s (NetlinkSocket_Close s (kern w1)).1]).
  split; [reflexivity|].
  split.
  { unfold close_end. cbn [trace]. rewrite Ht, <- !app_assoc. simpl.
    by rewrite <- !app_assoc. }
  split; [by exists f1, f2, tg, (NetlinkSocket_Close s (kern w1)).1|].
  split.
  { cbn zeta. rewrite <- app_assoc in Hw. simpl in Hw. by rewrite Hw. }
  assert (Hq : family_queries tg = [] ∧ length (guard_triggers tg) = 1%nat
               ∧ closes tg = []) by by destruct Hg.
  destruct Hq as (Hq & Hn & Hc).
  unfold family_queries, guard_triggers, closes in *.
  cbn [omap list_omap]. rewrite !omap_app, ?Hq, ?Hc. cbn [omap list_omap app].
  rewrite app_nil_r.
  repeat split; try done.
  unfold close_end. cbn [triedLoadOpenvswitchModule]. rewrite Hw. done.
Qed.

End Without_support.


(** * Further properties of ovs.go *)

Section Identifiers.
Context `{D : Decls} {K : Type} `{T : Transport K}.

Lemma digit_Some c : bool_decide (is_Some (Go.digit c)) = true → ∃ d, Go.digit c = Some d.
Proof. intros H. apply bool_decide_eq_true in H. by destruct H as [d ->]; exists d. Qed.

Lemma decimal_fold_mono (l : list ascii) : ∀ n,
  0 <= n →
  n <= fold_left (λ n c, n * 10 + default 0 (Go.digit c)) l n.
Proof.
  induction l as [|c l IH]; intros n Hn; simpl; [lia|].
  assert (0 <= default 0 (Go.digit c)).
  { destruct (Go.digit c) as [d|] eqn:E; simpl; [apply digit_range in E|]; lia. }
  etrans; [|apply IH]; lia.
Qed.

(** The digit loop succeeds exactly on digits whose number fits. *)
Lemma parseUint_loop_spec s0 s : ∀ n v,
  0 <= n <= Go.maxUint32 →
  Go.parseUint_loop s0 n s = (v, None) ↔
    all_digits s = true ∧
    v = fold_left (λ n c, n * 10 + default 0 (Go.digit c)) (list_ascii_of_string s) n ∧
    v <= Go.maxUint32.
Proof.
  unfold all_digits.
  induction s as [|c s IH]; intros n v Hn; simpl.
  - split; [intros [= <-]; repeat split; lia | by intros (_ & -> & _)].
  - destruct (Go.digit c) as [d|] eqn:Ed; simpl.
    2:{ split; [done | by intros []]. }
    pose proof (digit_range _ _ Ed) as Hd.
    assert (Hcut : (2 ^ 64 `div` 10 + 1 <=? n) = false).
    { apply Z.leb_gt. unfold Go.maxUint32 in Hn.
      change (2 ^ 64 `div` 10 + 1) with 1844674407370955162.
      change (2 ^ 32) with 4294967296 in Hn. lia. }
    rewrite Hcut.
    destruct ((2 ^ 64 <=? n * 10 + d) || (Go.maxUint32 <? n * 10 + d)) eqn:Eb.
    + split; [done|]. intros (_ & -> & Hle). exfalso.
      pose proof (decimal_fold_mono (list_ascii_of_string s) (n * 10 + d) ltac:(lia)) as Hm.
      apply orb_true_iff in Eb as [Eb|Eb].
      * apply Z.leb_le in Eb. unfold Go.maxUint32 in Hle.
        change (2 ^ 64) with 18446744073709551616 in Eb.
        change (2 ^ 32) with 4294967296 in Hle. lia.
      * apply Z.ltb_lt in Eb. lia.
    + apply orb_false_iff in Eb as [_ Eb]. apply Z.ltb_ge in Eb.
      apply IH. lia.
Qed.

(** [strconv.ParseUint(s, 10, 32)] succeeds exactly on the non-empty
    strings of decimal digits that write a number up to [maxUint32], and
    gives that number. *)
Lemma ParseUint_10_32_spec (s : string) (v : Z) :
  Go.ParseUint_10_32 s = (v, None) ↔
    is_decimal s = true ∧ v = decimal_value s ∧ v <= Go.maxUint32.
Proof.
  unfold Go.ParseUint_10_32, is_decimal, decimal_value. destruct s as [|c s].
  - split; [done | by intros []].
  - rewrite parseUint_loop_spec by (unfold Go.maxUint32; lia).
    rewrite bool_decide_eq_false_2 by done. done.
Qed.

(** X9.  [lookupDatapath] always returns, and returns a handle exactly
    when it returns no error; with an error the name returned is empty. *)
Theorem lookupDatapath_handle_iff_no_error (d : Dpif) (name : string) (w : World K) :
  ∃ r w',
    lookupDatapath d name w = Done r w' ∧
    (r.2 = None ↔ is_Some r.1.1) ∧
    (r.2 ≠ None → r.1.2 = EmptyString).
Proof.
  destruct (lookupDatapath_run d name w) as (r & w' & t & E & Ht & Hr).
  exists r, w'. split; [done|].
  destruct (LookupDatapath d name (kern w)) as [[dph [e|]] k1].
  - destruct (IsNoSuchDatapathError e).
    + destruct (Go.ParseUint_10_32 name) as [ifindex [pe|]].
      * destruct Hr as [_ ->]. cbn. split; [split; [done | by intros [? ?]] | done].
      * destruct (LookupDatapathByID d (DatapathID ifindex) k1) as [[dp [e'|]] k2].
        -- destruct Hr as (_ & _ & Hr).
           destruct (IsNoSuchDatapathError e'); subst r; cbn;
             (split; [split; [done | by intros [? ?]] | done]).
        -- destruct Hr as (_ & _ & ->). cbn. split; [split; [by eexists | done] | done].
    + destruct Hr as [_ ->]. cbn. split; [split; [done | by intros [? ?]] | done].
  - destruct Hr as [_ ->]. cbn. split; [split; [by eexists | done] | done].
Qed.

(** X10.  [lookupDatapath] looks the identifier up as a name once, and by
    number at most once.  It looks a number up exactly when the transport
    reported "no such datapath" for the name and the identifier is a
    non-empty string of decimal digits that writes a number up to
    4294967295; the id it looks up is the conversion of that number to
    [DatapathID].  An empty identifier, one with a sign, a space or a
    letter, and a number above 4294967295 are never looked up by
    number. *)
Theorem lookupDatapath_by_number_iff (d : Dpif) (name : string) (w : World K) :
  ∃ r w' t,
    lookupDatapath d name w = Done r w' ∧
    trace w' = trace w ++ t ∧
    datapath_lookups t = [name] ∧
    (numeric_lookups t = [] ∨
     numeric_lookups t = [DatapathID (decimal_value name)]) ∧
    (numeric_lookups t ≠ [] ↔
       (∃ e, (LookupDatapath d name (kern w)).1.2 = Some e ∧
             IsNoSuchDatapathError e = true) ∧
       is_decimal name = true ∧
       decimal_value name <= Go.maxUint32).
Proof.
  destruct (lookupDatapath_run d name w) as (r & w' & t & E & Ht & Hr).
  exists r, w', t. split; [done|]. split; [done|].
  destruct (LookupDatapath d name (kern w)) as [[dph [e|]] k1]; cbn [fst snd].
  - destruct (IsNoSuchDatapathError e) eqn:Ee.
    + destruct (Go.ParseUint_10_32 name) as [ifindex [pe|]] eqn:Ep.
      * destruct Hr as [-> _]. split; [done|]. split; [by left|].
        split; [done|]. intros (_ & Hd & Hv).
        assert (Hs : Go.ParseUint_10_32 name = (decimal_value name, None))
          by by apply ParseUint_10_32_spec.
        congruence.
      * apply ParseUint_10_32_spec in Ep as (Hd & -> & Hv).
        destruct (LookupDatapathByID d (DatapathID (decimal_value name)) k1)
          as [[dp e'] k2].
        destruct Hr as (_ & -> & _). split; [done|]. split; [by right|].
        split; [|done]. intros _. eauto.
    + destruct Hr as [-> _]. split; [done|]. split; [by left|].
      split; [done|]. intros ((e0 & [= <-] & He0) & _). congruence.
  - destruct Hr as [-> _]. split; [done|]. split; [by left|].
    split; [done|]. by intros ((e0 & ? & _) & _).
Qed.

End Identifiers.

Section Following.
Context `{D : Decls} {K : Type} `{T : Transport K}.

Lemma emits_ret {A} P (a : A) : emits P (mret a : M K A).
Proof. intros w. exists []. by rewrite app_nil_r. Qed.

Lemma emits_panic {A} P : emits P (panic : M K A).
Proof. intros w. exists []. by rewrite app_nil_r. Qed.

Lemma emits_bind {A B} P (m : M K A) (f : A → M K B) :
  emits P m → (∀ a, emits P (f a)) → emits P (m ≫= f).
Proof.
  intros Hm Hf w. destruct (Hm w) as (t1 & Ht1 & H1).
  unfold mbind, M_bind. destruct (m w) as [a w1|w1]; cbn [final] in *.
  - destruct (Hf a w1) as (t2 & Ht2 & H2). exists (t1 ++ t2).
    rewrite Ht2, Ht1, <- app_assoc. split; [done|]. by apply Forall_app.
  - by exists t1.
Qed.

Lemma emits_call {A} P (f : K → A * K) (ev : A → event) :
  (∀ a, P (ev a)) → emits P (call f ev).
Proof.
  intros Hev w. rewrite call_Done. cbn [final trace]. eexists [_].
  split; [done|]. by constructor.
Qed.

Lemma emits_deref {A} P (p : option A) : emits P (deref p : M K A).
Proof. destruct p; [apply emits_ret | apply emits_panic]. Qed.

Lemma emits_index {A} P (l : list A) (i : Z) : emits P (index l i : M K A).
Proof. unfold index. destruct (decide (0 <= i)); [apply emits_deref | apply emits_panic]. Qed.

Lemma emits_Once_Do : emits session_event (Once_Do loadOpenvswitchModule).
Proof.
  intros w. destruct (Once_Do_run w) as (k' & tg & -> & Hrun & _).
  exists tg. cbn [final trace]. split; [done|].
  destruct Hrun; repeat constructor.
Qed.

Lemma emits_lookupFamily (sock : NetlinkSocket) (name : string) :
  emits session_event (lookupFamily sock name).
Proof.
  unfold lookupFamily. apply emits_bind; [by apply emits_call|].
  intros [f [e|]]; [|apply emits_ret].
  destruct (decide (e = NetlinkError Go.ENOENT)); [|apply emits_ret].
  apply emits_bind; [apply emits_Once_Do|]. intros _.
  apply emits_bind; [by apply emits_call|].
  intros [f2 [e2|]]; [|apply emits_ret].
  destruct (decide (e2 = NetlinkError Go.ENOENT)); apply emits_ret.
Qed.

Lemma emits_newDpifType_loop (idx : list Z) :
  ∀ d, emits session_event (newDpifType_loop idx d).
Proof.
  induction idx as [|i idx IH]; intros d; cbn [newDpifType_loop].
  - apply emits_ret.
  - apply emits_bind; [apply emits_index|]. intros name.
    apply emits_bind; [apply emits_lookupFamily|]. intros [f err].
    apply emits_bind; [apply emits_index|]. intros _.
    destruct err; [|apply IH].
    apply emits_bind; [by apply emits_call|]. intros _. apply emits_ret.
Qed.

Lemma emits_NewDpifOvs (follow : bool) : emits session_event (NewDpifOvs follow).
Proof.
  unfold NewDpifOvs, newDpifType.
  apply emits_bind.
  { apply emits_bind; [by apply emits_call|].
    intros [s|e]; [apply emits_newDpifType_loop | apply emits_ret]. }
  intros [dpif [e|]]; [apply emits_ret|].
  apply emits_bind; [apply emits_deref|]. intros d.
  apply emits_bind.
  { unfold getMCGroup. apply emits_bind; [apply emits_index|]. intros fam.
    destruct (mcGroups fam !! "ovs_flow"%string); [apply emits_ret|].
    apply emits_bind; [apply emits_index|]. intros. apply emits_ret. }
  intros [g [e|]].
  - apply emits_bind; [by apply emits_call|]. intros. apply emits_ret.
  - destruct follow; [|apply emits_ret].
    apply emits_bind; [by apply emits_call|]. intros [e|]; [|apply emits_ret].
    apply emits_bind; [by apply emits_call|]. intros. apply emits_ret.
Qed.

Lemma session_event_lookups t :
  Forall session_event t → datapath_lookups t = [] ∧ numeric_lookups t = [].
Proof.
  induction 1 as [|e t He _ [IH1 IH2]]; [done|].
  destruct e; try done.
Qed.

(** The resolution of the name "ovs-system", which is no number. *)
Lemma lookupDatapath_ovs_system (d : Dpif) (w : World K) :
  lookupDatapath d "ovs-system" w =
    Done (match (LookupDatapath d "ovs-system" (kern w)).1.2 with
          | None => (Some (LookupDatapath d "ovs-system" (kern w)).1.1,
                     "ovs-system"%string, None)
          | Some e => (None, EmptyString,
                       Some (if IsNoSuchDatapathError e
                             then cannotFind "ovs-system" else e))
          end)
         (mkWorld (LookupDatapath d "ovs-system" (kern w)).2
                  (triedLoadOpenvswitchModule w)
                  (trace w ++ [EvLookupDatapath "ovs-system"
                                 (LookupDatapath d "ovs-system" (kern w)).1.2])).
Proof.
  unfold lookupDatapath. rewrite (bind_Done _ _ _ _ _ (call_Done _ _ _)).
  destruct (LookupDatapath d "ovs-system" (kern w)) as [[dph [e|]] k1];
    cbn [fst snd]; [|done].
  by destruct (IsNoSuchDatapathError e).
Qed.

(** Every run of [FollowOvsFlows], by the step at which it ends. *)
Lemma FollowOvsFlows_cases (w : World K) :
  ∃ r w' t,
    FollowOvsFlows w = Done r w' ∧
    trace w' = trace w ++ t ∧
    ((∃ e, NewDpifOvs true w = Done (None, Some e) w' ∧
           r = (None, None, Some e)) ∨
     (∃ d w1 ts e,
        NewDpifOvs true w = Done (Some d, None) w1 ∧
        trace w1 = trace w ++ ts ∧
        t = ts ++ [EvLookupDatapath "ovs-system" (Some e)] ∧
        r = (None, None,
             Some (if IsNoSuchDatapathError e then cannotFind "ovs-system" else e))) ∨
     (∃ d w1 ts h k res stop err,
        NewDpifOvs true w = Done (Some d, None) w1 ∧
        trace w1 = trace w ++ ts ∧
        FollowFlows h k = ((res, stop, err), kern w') ∧
        t = ts ++ [EvLookupDatapath "ovs-system" None; EvFollowFlows err] ∧
        r = (res, Some (stop_func stop d), err))).
Proof.
  unfold FollowOvsFlows.
  destruct (NewDpifOvs_cases true w) as (r & w1 & ts & E & Ht & Hr).
  rewrite (bind_Done _ _ _ _ _ E).
  assert (Hshape : (∃ e, r = (None, Some e)) ∨ (∃ d, r = (Some d, None))).
  { destruct Hr as [(e & _ & ->) | [(s & t1 & e & cerr & _ & _ & _ & _ & ->) |
      [(s & fs & t1 & fam & cerr & _ & _ & _ & _ & ->) |
       [(s & fs & t1 & fam & g & e & cerr & _ & _ & _ & _ & _ & ->) |
        (s & fs & t1 & fam & g & _ & _ & _ & _ & ->)]]]]; eauto. }
  destruct Hshape as [(e & ->) | (d & ->)].
  - eexists _, _, ts. split; [reflexivity|]. split; [done|]. left. eauto.
  - cbn [deref]. change (mret d ≫= ?k) with (λ v : World K, k d v). cbn beta.
    rewrite (bind_Done _ _ _ _ _ (lookupDatapath_ovs_system d w1)).
    destruct (LookupDatapath d "ovs-system" (kern w1)) as [[h [e|]] k2]; cbn [fst snd].
    + eexists _, _, (ts ++ [EvLookupDatapath "ovs-system" (Some e)]).
      split; [reflexivity|]. cbn [trace]. split; [by rewrite Ht, <- app_assoc|].
      right; left. by exists d, w1, ts, e.
    + cbn [deref]. change (mret h ≫= ?k) with (λ v : World K, k h v). cbn beta.
      rewrite (bind_Done _ _ _ _ _ (call_Done _ _ _)).
      cbn [kern trace triedLoadOpenvswitchModule].
      destruct (FollowFlows h k2) as [[[res stop] err] k3] eqn:Ef; cbn [fst snd].
      eexists _, _, (ts ++ [EvLookupDatapath "ovs-system" None; EvFollowFlows err]).
      split; [reflexivity|]. cbn [trace kern].
      split; [by rewrite Ht, <- !app_assoc|].
      right; right. by exists d, w1, ts, h, k2, res, stop, err.
Qed.

(** A session that [NewDpifOvs] returned with [follow]: its trace. *)
Lemma NewDpifOvs_success (w w1 : World K) (d : Dpif) :
  NewDpifOvs true w = Done (Some d, None) w1 →
  ∃ t1 fam g,
    resolved (sock d) familyNames (families d) t1 ∧
    families d !! Z.to_nat FLOW = Some fam ∧
    mcGroups fam !! "ovs_flow"%string = Some g ∧
    trace w1 = trace w ++
      EvOpenNetlinkSocket Go.NETLINK_GENERIC (inl (sock d))
        :: t1 ++ [EvSetsockoptInt (fd (sock d)) SOL_NETLINK
                    Go.NETLINK_ADD_MEMBERSHIP g None].
Proof.
  intros E.
  destruct (NewDpifOvs_cases true w) as (r & w' & t & E' & Ht & Hr).
  rewrite E in E'. inversion E'; subst r w'; clear E'.
  destruct Hr as [(e & _ & He) | [(s & t1 & e & cerr & _ & _ & _ & _ & He) |
    [(s & fs & t1 & fam & cerr & _ & _ & _ & _ & He) |
     [(s & fs & t1 & fam & g & e & cerr & _ & _ & _ & _ & _ & He) |
      (s & fs & t1 & fam & g & Hres & Hfam & Hg & -> & He)]]]]; try done.
  inversion He; subst d; clear He. by exists t1, fam, g.
Qed.

(** What [FollowOvsFlows] returns and the state it leaves, from the
    answers of the transport. *)
Lemma FollowOvsFlows_end (w w' : World K)
    (r : option FlowChan * option (M K unit) * option error) :
  FollowOvsFlows w = Done r w' →
  ∃ r1 w1,
    NewDpifOvs true w = Done r1 w1 ∧
    subscription_end true w r1 w1 ∧
    match r1 with
    | (_, Some e) => r = (None, None, Some e) ∧ w' = w1
    | (None, None) => False
    | (Some d, None) =>
        let '((h, e1), k2) := LookupDatapath d "ovs-system" (kern w1) in
        let w2 := mkWorld k2 (triedLoadOpenvswitchModule w1)
                    (trace w1 ++ [EvLookupDatapath "ovs-system" e1]) in
        match e1 with
        | Some e =>
            r = (None, None,
                 Some (if IsNoSuchDatapathError e
                       then cannotFind "ovs-system" else e)) ∧
            w' = w2
        | None =>
            let '((res, stop, err), k3) := FollowFlows h k2 in
            r = (res, Some (stop_func stop d), err) ∧
            w' = mkWorld k3 (triedLoadOpenvswitchModule w1)
                         (trace w2 ++ [EvFollowFlows err])
        end
    end.
Proof.
  unfold FollowOvsFlows. intros E.
  destruct (NewDpifOvs_cases true w) as (r1 & w1 & ts & E1 & Ht & Hr).
  rewrite (bind_Done _ _ _ _ _ E1) in E.
  exists r1, w1. split; [exact E1|]. split; [by apply NewDpifOvs_end|].
  assert (Hshape : (∃ e, r1 = (None, Some e)) ∨ (∃ d, r1 = (Some d, None))).
  { destruct Hr as [(e & _ & ->) | [(s & t1 & e & cerr & _ & _ & _ & _ & ->) |
      [(s & fs & t1 & fam & cerr & _ & _ & _ & _ & ->) |
       [(s & fs & t1 & fam & g & e & cerr & _ & _ & _ & _ & _ & ->) |
        (s & fs & t1 & fam & g & _ & _ & _ & _ & ->)]]]]; eauto. }
  destruct Hshape as [(e & ->) | (d & ->)]; [by inversion E|].
  cbn [deref] in E. change (mret d ≫= ?k) with (λ v : World K, k d v) in E.
  cbn beta in E.
  rewrite (bind_Done _ _ _ _ _ (lookupDatapath_ovs_system d w1)) in E.
  destruct (LookupDatapath d "ovs-system" (kern w1)) as [[h [e|]] k2];
    cbn [fst snd] in E; [by inversion E|].
  cbn [deref] in E. change (mret h ≫= ?k) with (λ v : World K, k h v) in E.
  cbn beta in E.
  rewrite (bind_Done _ _ _ _ _ (call_Done _ _ _)) in E.
  cbn [kern trace triedLoadOpenvswitchModule] in E. cbn zeta.
  destruct (FollowFlows h k2) as [[[res stop] err] k3]; cbn [fst snd] in E.
  by inversion E.
Qed.

(** X11.  [FollowOvsFlows] always returns.  When the session opens, it
    has joined the group of flow events before it looks for the datapath;
    it looks up the one name "ovs-system", once, and never a numeric id.
    An answer "no such datapath" gives the error
    [Cannot find datapath "ovs-system"], any other error of the lookup is
    returned as it is; otherwise [FollowFlows] is called once, and its
    channel and error are returned with the stop function.  From the
    opening of the session on, no socket is closed before the return,
    with or without an error.  What it returns, and the state in which
    it returns, are those that the answers of the transport determine:
    the session is opened by [NewDpifOvs] with [follow] in the state in
    which [FollowOvsFlows] is entered; the name "ovs-system" is looked
    up on that session in the state the opening left; [FollowFlows] is
    called on the handle the lookup answered, in the state the lookup
    left; and [FollowOvsFlows] returns in the state the last of these
    calls left. *)
Theorem FollowOvsFlows_steps (w : World K) :
  ∃ r w' t,
    FollowOvsFlows w = Done r w' ∧
    trace w' = trace w ++ t ∧
    numeric_lookups t = [] ∧
    ((∃ e, NewDpifOvs true w = Done (None, Some e) w' ∧
           r = (None, None, Some e) ∧
           datapath_lookups t = []) ∨
     (∃ d t1 g rest,
        resolved (sock d) familyNames (families d) t1 ∧
        t = EvOpenNetlinkSocket Go.NETLINK_GENERIC (inl (sock d))
              :: t1 ++ [EvSetsockoptInt (fd (sock d)) SOL_NETLINK
                          Go.NETLINK_ADD_MEMBERSHIP g None] ++ rest ∧
        closes t = [] ∧
        ((∃ e, rest = [EvLookupDatapath "ovs-system" (Some e)] ∧
               r = (None, None,
                    Some (if IsNoSuchDatapathError e
                          then cannotFind "ovs-system" else e))) ∨
         (∃ res stop err,
            rest = [EvLookupDatapath "ovs-system" None; EvFollowFlows err] ∧
            r = (res, Some (stop_func stop d), err) ∧
            ∃ h k, FollowFlows h k = ((res, stop, err), kern w'))))) ∧
    (∃ r1 w1,
       NewDpifOvs true w = Done r1 w1 ∧
       subscription_end true w r1 w1 ∧
       match r1 with
       | (_, Some e) => r = (None, None, Some e) ∧ w' = w1
       | (None, None) => False
       | (Some d, None) =>
           let '((h, e1), k2) := LookupDatapath d "ovs-system" (kern w1) in
           let w2 := mkWorld k2 (triedLoadOpenvswitchModule w1)
                       (trace w1 ++ [EvLookupDatapath "ovs-system" e1]) in
           match e1 with
           | Some e =>
               r = (None, None,
                    Some (if IsNoSuchDatapathError e
                          then cannotFind "ovs-system" else e)) ∧
               w' = w2
           | None =>
               let '((res, stop, err), k3) := FollowFlows h k2 in
               r = (res, Some (stop_func stop d), err) ∧
               w' = mkWorld k3 (triedLoadOpenvswitchModule w1)
                            (trace w2 ++ [EvFollowFlows err])
           end
       end).
Proof.
  destruct (FollowOvsFlows_cases w) as (r & w' & t & E & Ht & Hr).
  exists r, w', t. split; [done|]. split; [done|].
  apply and_assoc. split; [|by apply FollowOvsFlows_end].
  destruct (emits_NewDpifOvs true w) as (ts' & Hts' & Hses).
  destruct Hr as [(e & En & ->) | [(d & w1 & ts & e & En & Hts & -> & ->) |
                  (d & w1 & ts & h & k & res & stop & err & En & Hts & Hf & -> & ->)]];
    rewrite En in Hts'; cbn [final] in Hts'.
  - rewrite Ht in Hts'. apply app_inv_head in Hts'. subst ts'.
    destruct (session_event_lookups _ Hses) as [H1 H2].
    split; [done|]. left. eauto.
  - rewrite Hts in Hts'. apply app_inv_head in Hts'. subst ts'.
    destruct (session_event_lookups _ Hses) as [H1 H2].
    destruct (NewDpifOvs_success _ _ _ En) as (t1 & fam & g & Hres & _ & _ & Hw1).
    rewrite Hts in Hw1. apply app_inv_head in Hw1. subst ts.
    split.
    { unfold numeric_lookups in *. by rewrite omap_app, H2. }
    right. exists d, t1, g, [EvLookupDatapath "ovs-system" (Some e)].
    split; [done|]. split; [simpl; by rewrite <- app_assoc|].
    split; [|left; eauto].
    assert (Hc : closes (EvOpenNetlinkSocket Go.NETLINK_GENERIC (inl (sock d))
                           :: t1 ++ [EvSetsockoptInt (fd (sock d)) SOL_NETLINK
                                       Go.NETLINK_ADD_MEMBERSHIP g None]) = []).
    { change (closes (?a :: ?l)) with (closes l).
      by rewrite closes_app, (resolved_no_close _ _ _ _ Hres). }
    by rewrite closes_app, Hc.
  - rewrite Hts in Hts'. apply app_inv_head in Hts'. subst ts'.
    destruct (session_event_lookups _ Hses) as [H1 H2].
    destruct (NewDpifOvs_success _ _ _ En) as (t1 & fam & g & Hres & _ & _ & Hw1).
    rewrite Hts in Hw1. apply app_inv_head in Hw1. subst ts.
    split.
    { unfold numeric_lookups in *. by rewrite omap_app, H2. }
    right. exists d, t1, g, [EvLookupDatapath "ovs-system" None; EvFollowFlows err].
    split; [done|]. split; [simpl; by rewrite <- app_assoc|].
    split; [|right; eauto 10].
    assert (Hc : closes (EvOpenNetlinkSocket Go.NETLINK_GENERIC (inl (sock d))
                           :: t1 ++ [EvSetsockoptInt (fd (sock d)) SOL_NETLINK
                                       Go.NETLINK_ADD_MEMBERSHIP g None]) = []).
    { change (closes (?a :: ?l)) with (closes l).
      by rewrite closes_app, (resolved_no_close _ _ _ _ Hres). }
    by rewrite closes_app, Hc.
Qed.

(** X12.  [FollowOvsFlows] never panics, and what it returns fits
    together: with no error the stop function is not nil; a nil stop
    function comes only with an error and a nil channel. *)
Theorem FollowOvsFlows_results (w : World K) :
  ∃ r w',
    FollowOvsFlows w = Done r w' ∧
    (r.2 = None → is_Some r.1.2) ∧
    (r.1.2 = None → is_Some r.2 ∧ r.1.1 = None).
Proof.
  destruct (FollowOvsFlows_cases w) as (r & w' & t & E & _ & Hr).
  exists r, w'. split; [done|].
  destruct Hr as [(e & _ & ->) | [(d & w1 & ts & e & _ & _ & _ & ->) |
                  (d & w1 & ts & h & k & res & stop & err & _ & _ & _ & _ & ->)]];
    cbn; split; try done; try (intros _; split; [by eexists | done]);
    try (intros _; by eexists).
Qed.

(** X13.  In one run of [FollowOvsFlows], from the opening of the session
    to the start of following, the autoload probe runs at most once, and
    not at all when the guard was triggered before in the process. *)
Theorem FollowOvsFlows_probes_at_most_once (w : World K) :
  ∃ t, trace (final (FollowOvsFlows w)) = trace w ++ t ∧
       (probe_runs t <= 1)%nat ∧
       (triedLoadOpenvswitchModule w = true → probe_runs t = 0%nat) ∧
       (probe_runs t = 1%nat →
        triedLoadOpenvswitchModule (final (FollowOvsFlows w)) = true) ∧
       (triedLoadOpenvswitchModule w = true →
        triedLoadOpenvswitchModule (final (FollowOvsFlows w)) = true).
Proof. apply guard_law_once, guard_law_FollowOvsFlows. Qed.

End Following.

(** * Further runs on the simulated host *)

Section More_simulated_runs.
#[local] Existing Instance Sim.decls.

Lemma lookupFamily_never_returns_ENOENT_witness :
  lookupFamily (T:=Sim.transport) Sim.session_socket "ovs_flow"
      (Sim.boot (Sim.bare_host false)) =
    Done (GenlFamily_zero, Some (familyUnavailableError "ovs_flow"))
         (final (lookupFamily (T:=Sim.transport) Sim.session_socket "ovs_flow"
                   (Sim.boot (Sim.bare_host false)))) ∧
  (familyUnavailableError "ovs_flow" ≠ NetlinkError Go.ENOENT ∧
   GenlFamily_zero = GenlFamily_zero).
Proof.
  split; [vm_compute; reflexivity|].
  apply (lookupFamily_never_returns_ENOENT (T:=Sim.transport)
           Sim.session_socket "ovs_flow" (Sim.boot (Sim.bare_host false))
           (final (lookupFamily (T:=Sim.transport) Sim.session_socket "ovs_flow"
                     (Sim.boot (Sim.bare_host false))))).
  vm_compute; reflexivity.
Defined.

Lemma getMCGroup_lookup_witness :
  length (families Sim.dpif) = Z.to_nat FAMILY_COUNT ∧
  ((0 <= FLOW < FAMILY_COUNT →
    ∃ fam fname,
      families Sim.dpif !! Z.to_nat FLOW = Some fam ∧
      familyNames !! Z.to_nat FLOW = Some fname ∧
      getMCGroup Sim.dpif FLOW "ovs_flow" (Sim.boot (Sim.host [] false false)) =
        Done (match mcGroups fam !! "ovs_flow"%string with
              | Some g => (g, None)
              | None => (0, Some (errorString
                           ("No genl MC group " ++ "ovs_flow" ++ " in family " ++ fname)%string))
              end) (Sim.boot (Sim.host [] false false))) ∧
   (¬ 0 <= FLOW < FAMILY_COUNT →
    getMCGroup Sim.dpif FLOW "ovs_flow" (Sim.boot (Sim.host [] false false)) =
      Panic (Sim.boot (Sim.host [] false false)))).
Proof.
  split; [reflexivity|].
  apply (getMCGroup_lookup Sim.dpif FLOW "ovs_flow" (Sim.boot (Sim.host [] false false))).
  reflexivity.
Defined.

(** Group ids read from the session of the simulated host: the group of
    flow events, a group that no family records, an index out of range. *)
Example getMCGroup_on_host :
  getMCGroup Sim.dpif FLOW "ovs_flow" (Sim.boot (Sim.host [] false false)) =
    Done (7, None) (Sim.boot (Sim.host [] false false)) ∧
  getMCGroup Sim.dpif PACKET "ovs_flow" (Sim.boot (Sim.host [] false false)) =
    Done (0, Some (errorString "No genl MC group ovs_flow in family ovs_packet"))
         (Sim.boot (Sim.host [] false false)) ∧
  getMCGroup Sim.dpif FAMILY_COUNT "ovs_flow" (Sim.boot (Sim.host [] false false)) =
    Panic (Sim.boot (Sim.host [] false false)) ∧
  getMCGroup Sim.dpif (-1) "ovs_flow" (Sim.boot (Sim.host [] false false)) =
    Panic (Sim.boot (Sim.host [] false false)).
Proof. repeat split; vm_compute; reflexivity. Qed.

Lemma newDpifType_without_support_witness :
  (∀ k, (LookupGenlFamily (Transport:=Sim.transport_without_ovs)
           (mkNetlinkSocket 3 Go.NETLINK_NETFILTER) "ovs_datapath" k).1.2
        = Some (NetlinkError Go.ENOENT)) ∧
  OpenNetlinkSocket (Transport:=Sim.transport_without_ovs) Go.NETLINK_NETFILTER
      (kern (Sim.boot (Sim.bare_host false)))
    = (inl (mkNetlinkSocket 3 Go.NETLINK_NETFILTER),
       Sim.set_fds (Sim.bare_host false) 4 [3; 0; 1; 2]) ∧
  ∃ w' t,
    newDpifType (T:=Sim.transport_without_ovs) Go.NETLINK_NETFILTER
        (Sim.boot (Sim.bare_host false)) =
      Done (None, Some (familyUnavailableError "ovs_datapath")) w' ∧
    trace w' = trace (Sim.boot (Sim.bare_host false)) ++ t ∧
    (∃ f1 f2 tg cerr,
       guard_run tg ∧
       t = EvOpenNetlinkSocket Go.NETLINK_NETFILTER
             (inl (mkNetlinkSocket 3 Go.NETLINK_NETFILTER))
             :: EvLookupGenlFamily (mkNetlinkSocket 3 Go.NETLINK_NETFILTER)
                  "ovs_datapath" f1 (Some (NetlinkError Go.ENOENT))
             :: tg ++ [EvLookupGenlFamily (mkNetlinkSocket 3 Go.NETLINK_NETFILTER)
                         "ovs_datapath" f2 (Some (NetlinkError Go.ENOENT));
                       EvSockClose (mkNetlinkSocket 3 Go.NETLINK_NETFILTER) cerr]) ∧
    (let q1 := LookupGenlFamily (Transport:=Sim.transport_without_ovs)
                 (mkNetlinkSocket 3 Go.NETLINK_NETFILTER) "ovs_datapath"
                 (Sim.set_fds (Sim.bare_host false) 4 [3; 0; 1; 2]) in
     let w2 := guard_end (T:=Sim.transport_without_ovs)
                 (mkWorld q1.2
                    (triedLoadOpenvswitchModule (Sim.boot (Sim.bare_host false)))
                    (trace (Sim.boot (Sim.bare_host false)) ++
                       [EvOpenNetlinkSocket Go.NETLINK_NETFILTER
                          (inl (mkNetlinkSocket 3 Go.NETLINK_NETFILTER));
                        EvLookupGenlFamily (mkNetlinkSocket 3 Go.NETLINK_NETFILTER)
                          "ovs_datapath" q1.1.1 q1.1.2])) in
     let q2 := LookupGenlFamily (Transport:=Sim.transport_without_ovs)
                 (mkNetlinkSocket 3 Go.NETLINK_NETFILTER) "ovs_datapath" (kern w2) in
     w' = close_end (T:=Sim.transport_without_ovs)
            (mkNetlinkSocket 3 Go.NETLINK_NETFILTER)
            (mkWorld q2.2 true
               (trace w2 ++ [EvLookupGenlFamily (mkNetlinkSocket 3 Go.NETLINK_NETFILTER)
                               "ovs_datapath" q2.1.1 q2.1.2]))) ∧
    family_queries t =
      [(mkNetlinkSocket 3 Go.NETLINK_NETFILTER, "ovs_datapath"%string,
        Some (NetlinkError Go.ENOENT));
       (mkNetlinkSocket 3 Go.NETLINK_NETFILTER, "ovs_datapath"%string,
        Some (NetlinkError Go.ENOENT))] ∧
    length (guard_triggers t) = 1%nat ∧
    closes t = [mkNetlinkSocket 3 Go.NETLINK_NETFILTER] ∧
    triedLoadOpenvswitchModule w' = true ∧
    IsKernelLacksODPError (familyUnavailableError "ovs_datapath") = true.
Proof.
  split; [intros k; reflexivity|]. split; [reflexivity|].
  apply (newDpifType_without_support (T:=Sim.transport_without_ovs)
           Go.NETLINK_NETFILTER (Sim.boot (Sim.bare_host false))
           (mkNetlinkSocket 3 Go.NETLINK_NETFILTER)
           (Sim.set_fds (Sim.bare_host false) 4 [3; 0; 1; 2])).
  - intros k; reflexivity.
  - reflexivity.
Defined.

Lemma Reopen_keeps_groups_witness :
  Reopen (T:=Sim.transport) Sim.dpif (Sim.boot (Sim.host_in_session [] false false)) =
    Done (Some (mkDpif (mkNetlinkSocket 4 Go.NETLINK_GENERIC) (families Sim.dpif)), None)
         (final (Reopen (T:=Sim.transport) Sim.dpif
                   (Sim.boot (Sim.host_in_session [] false false)))) ∧
  ∀ (family : Z) (name : string) (v : World Sim.state),
    getMCGroup (mkDpif (mkNetlinkSocket 4 Go.NETLINK_GENERIC) (families Sim.dpif))
               family name v
      = getMCGroup Sim.dpif family name v.
Proof.
  split; [vm_compute; reflexivity|].
  apply (Reopen_keeps_groups (T:=Sim.transport) Sim.dpif
           (mkDpif (mkNetlinkSocket 4 Go.NETLINK_GENERIC) (families Sim.dpif))
           (Sim.boot (Sim.host_in_session [] false false))
           (final (Reopen (T:=Sim.transport) Sim.dpif
                     (Sim.boot (Sim.host_in_session [] false false))))).
  vm_compute; reflexivity.
Defined.

(** Identifiers on a host whose datapath "br0" has the id 42: what
    ParseUint makes of them, and that only a number is looked up by
    number. *)
Example identifiers_parsed :
  is_decimal "42" = true ∧ decimal_value "42" = 42 ∧
  is_decimal "007" = true ∧ decimal_value "007" = 7 ∧
  is_decimal "" = false ∧ is_decimal "-1" = false ∧ is_decimal "+5" = false ∧
  is_decimal " 42" = false ∧ is_decimal "0x2a" = false ∧
  Go.ParseUint_10_32 "4294967295" = (4294967295, None) ∧
  (Go.ParseUint_10_32 "4294967296").2 ≠ None ∧
  numeric_lookups
    (trace (final (lookupDatapath (T:=Sim.transport) Sim.dpif "007"
                     (Sim.boot (Sim.host [("br0"%string, 42)] false false))))) = [7] ∧
  numeric_lookups
    (trace (final (lookupDatapath (T:=Sim.transport) Sim.dpif "4294967296"
                     (Sim.boot (Sim.host [("br0"%string, 42)] false false))))) = [] ∧
  numeric_lookups
    (trace (final (lookupDatapath (T:=Sim.transport) Sim.dpif "br0"
                     (Sim.boot (Sim.host [("br0"%string, 42)] false false))))) = [].
Proof. repeat split; vm_compute; (reflexivity || discriminate). Qed.

End More_simulated_runs.
